(** * Ham10000: training, validation and reporting helpers

    A shallow embedding of [functions/Model_functions.py].  The numeric and
    plotting libraries the file calls (torch, torchvision, sklearn, pandas,
    seaborn, matplotlib) are an interface the development is parametric in;
    the Python of the file itself (loops, counters, divisions, the unbound
    local, [exit()]) is written out. *)

From Stdlib Require Import ZArith QArith Lia Ascii.
From stdpp Require Import base option list gmap strings.

Local Open Scope Z_scope.

(** ** Python values *)

(** A Python [float], a binary64 number: a finite value is kept as the
    rational it stands for, next to [inf], [-inf] and [nan].  Comparisons
    are exact; arithmetic rounds (see [rnd] below). *)
Inductive pyfloat :=
| Fin (q : Q)
| PInf
| NInf
| NaN.

(** [a < b] on floats: every comparison with [nan] is false. *)
Definition flt (a b : pyfloat) : bool :=
  match a, b with
  | NaN, _ | _, NaN => false
  | _, NInf => false
  | NInf, _ => true
  | PInf, _ => false
  | Fin _, PInf => true
  | Fin x, Fin y => negb (Qle_bool y x)
  end.

(** [a > b]. *)
Definition fgt (a b : pyfloat) : bool := flt b a.

(** [a <= b]. *)
Definition fle (a b : pyfloat) : bool :=
  match a, b with
  | NaN, _ | _, NaN => false
  | NInf, _ => true
  | _, PInf => true
  | _, NInf => false
  | PInf, _ => false
  | Fin x, Fin y => Qle_bool x y
  end.

Definition is_nan (a : pyfloat) : bool :=
  match a with NaN => true | _ => false end.

Inductive exn :=
| ZeroDivisionError
| UnboundLocalError (name : string)
| FileNotFoundError (path : string)
| ValueError
| SystemExit.

Inductive result (A : Type) :=
| Ok (a : A)
| Raise (e : exn).
Arguments Ok {A} a.
Arguments Raise {A} e.

#[export] Instance result_ret : MRet result := fun A a => Ok a.
#[export] Instance result_bind : MBind result := fun A B f m =>
  match m with
  | Ok a => f a
  | Raise e => Raise e
  end.

(** [len(xs)]. *)
Definition len {A} (xs : list A) : Z := Z.of_nat (length xs).

(** ** The torch interface *)

(** What the file needs of its runtime: torch, and the rounding of float
    arithmetic.  [Net] is the module together with the optimiser built on
    its parameters: everything a pass mutates.  A call [model(data)] on a
    batch of [n] samples yields [n] rows of class scores, row [i] being
    [snd (call net data) i]; the call itself may refresh buffers, hence the
    new [Net].

    [rnd q] is the float an arithmetic operation returns when its exact
    result is [q]: the nearest binary64 number, [inf] or [-inf] beyond the
    range.  Of rounding the development uses that it never crosses a float,
    and that an integer up to [2^53] in size is one. *)
Class Torch := {
  Net : Type;
  Weights : Type;
  Sample : Type;
  Row : Type;
  train_mode : Net -> Net;                          (* model.train() *)
  eval_mode : Net -> Net;                           (* model.eval() *)
  call : Net -> list Sample -> Net * (nat -> Row);  (* model(data) *)
  argmax : Row -> nat;                              (* torch.max(outputs.data, 1)[1] *)
  criterion : list Row -> list nat -> pyfloat;      (* criterion(outputs, labels).item() *)
  optimise : Net -> list Sample -> list nat -> Net; (* zero_grad(); backward(); step() *)
  state_dict : Net -> Weights;                      (* model.state_dict() *)
  load_state_dict : Net -> Weights -> Net;          (* model.load_state_dict(w) *)
  rnd : Q -> pyfloat;
  rnd_le_int : forall q z, Z.abs z <= 2 ^ 53 -> (q <= inject_Z z)%Q ->
                           fle (rnd q) (Fin (inject_Z z)) = true;
  rnd_ge_int : forall q z, Z.abs z <= 2 ^ 53 -> (inject_Z z <= q)%Q ->
                           fle (Fin (inject_Z z)) (rnd q) = true
}.

Section Arithmetic.
Context `{T : Torch}.

(** [a + b] on floats. *)
Definition fadd (a b : pyfloat) : pyfloat :=
  match a, b with
  | NaN, _ | _, NaN => NaN
  | PInf, NInf | NInf, PInf => NaN
  | PInf, _ | _, PInf => PInf
  | NInf, _ | _, NInf => NInf
  | Fin x, Fin y => rnd (x + y)
  end.

(** [x / n] for a float [x] and an int [n]. *)
Definition float_truediv (x : pyfloat) (n : Z) : result pyfloat :=
  if n =? 0 then Raise ZeroDivisionError
  else Ok match x with
          | Fin q => rnd (q / inject_Z n)
          | PInf => if 0 <? n then PInf else NInf
          | NInf => if 0 <? n then NInf else PInf
          | NaN => NaN
          end.

(** [a / b] for two ints: true division, the float nearest the quotient
    (a quotient beyond the range of floats, which no percentage reaches,
    raises [OverflowError] in Python and is not modelled). *)
Definition int_truediv (a b : Z) : result pyfloat :=
  if b =? 0 then Raise ZeroDivisionError
  else Ok (rnd (inject_Z a / inject_Z b)).

End Arithmetic.

Section Passes.
Context `{T : Torch}.

(** A batch as a loader yields it: the collated (input, label) items. *)
Definition Batch : Type := list (Sample * nat).

Definition data (b : Batch) : list Sample := b.*1.
Definition labels (b : Batch) : list nat := b.*2.

(** The rows of [outputs] for a batch of inputs. *)
Definition outputs (rows : nat -> Row) (xs : list Sample) : list Row :=
  rows <$> seq 0 (length xs).

(** [_, predicted = torch.max(outputs.data, 1)]. *)
Definition predicted (outs : list Row) : list nat := argmax <$> outs.

(** [(predicted == labels).sum().item()]. *)
Fixpoint count_equal (ps ls : list nat) : Z :=
  match ps, ls with
  | p :: ps', l :: ls' => (if bool_decide (p = l) then 1 else 0) + count_equal ps' ls'
  | _, _ => 0
  end.

(** The variables a pass carries from batch to batch. *)
Record Pass := {
  model : Net;
  loss_sum : pyfloat;
  correct : Z;
  total : Z
}.

(** Body of the [for] loop of [train_epoch]. *)
Definition train_batch (st : Pass) (b : Batch) : Pass :=
  let '(net1, rows) := call (model st) (data b) in
  let outs := outputs rows (data b) in
  let loss := criterion outs (labels b) in
  {| model := optimise net1 (data b) (labels b);
     loss_sum := fadd (loss_sum st) loss;
     total := total st + len (labels b);
     correct := correct st + count_equal (predicted outs) (labels b) |}.

Definition train_epoch (net : Net) (train_loader : list Batch)
  : Net * result (pyfloat * pyfloat) :=
  let st := foldl train_batch
              {| model := train_mode net; loss_sum := Fin 0; correct := 0; total := 0 |}
              train_loader in
  (model st,
   avg_train_loss ← float_truediv (loss_sum st) (len train_loader);
   train_accuracy ← int_truediv (100 * correct st) (total st);
   mret (avg_train_loss, train_accuracy)).

(** Body of the [for] loop of [validate_epoch]. *)
Definition validate_batch (st : Pass) (b : Batch) : Pass :=
  let '(net1, rows) := call (model st) (data b) in
  let outs := outputs rows (data b) in
  let loss := criterion outs (labels b) in
  {| model := net1;
     loss_sum := fadd (loss_sum st) loss;
     total := total st + len (labels b);
     correct := correct st + count_equal (predicted outs) (labels b) |}.

Definition validate_epoch (net : Net) (val_loader : list Batch)
  : Net * result (pyfloat * pyfloat) :=
  let st := foldl validate_batch
              {| model := eval_mode net; loss_sum := Fin 0; correct := 0; total := 0 |}
              val_loader in
  (model st,
   avg_valid_loss ← float_truediv (loss_sum st) (len val_loader);
   valid_accuracy ← int_truediv (100 * correct st) (total st);
   mret (avg_valid_loss, valid_accuracy)).

(** Body of the [for] loop of [test_model]; no loss is computed. *)
Definition test_batch (st : Pass) (b : Batch) : Pass :=
  let '(net1, rows) := call (model st) (data b) in
  let outs := outputs rows (data b) in
  {| model := net1;
     loss_sum := loss_sum st;
     total := total st + len (labels b);
     correct := correct st + count_equal (predicted outs) (labels b) |}.

Definition test_model (net : Net) (test_loader : list Batch)
  : Net * result pyfloat :=
  let st := foldl test_batch
              {| model := eval_mode net; loss_sum := Fin 0; correct := 0; total := 0 |}
              test_loader in
  (model st, int_truediv (100 * correct st) (total st)).

(** The number of samples a loader yields. *)
Definition samples (loader : list Batch) : Z :=
  foldr (fun b n => len b + n) 0 loader.

End Passes.

(** ** The world of [train_and_validate_model] *)

(** What the function writes to the console. *)
Inductive message :=
| Text (s : string)
| EpochLine (n : Z)                          (* Epoch {epoch+1} *)
| TrainingLine (loss acc : pyfloat)          (* Training Loss: .. Training Accuracy: ..% *)
| ValidationLine (loss acc : pyfloat)        (* Validation Loss: .. Validation Accuracy: ..% *)
| DecreasedLine (old new : pyfloat)          (* Validation Loss Decreased(old--->new) Saving The Model;
                                                the two values handed to the format, each shown with six decimals *)
| Rule.                                      (* the line of = signs *)

Section Training.
Context `{T : Torch}.

(** What a run does that can be seen from outside, in order. *)
Inductive event :=
| Tick (epoch : nat)                  (* tqdm hands out the next epoch *)
| TrainPass                           (* a call of train_epoch *)
| ValidPass                           (* a call of validate_epoch *)
| Printed (m : message)
| Saved (path : string) (w : Weights) (* torch.save *)
| Loaded (path : string).             (* torch.load *)

(** The model object, the files holding checkpoints, and the events so far. *)
Record World := {
  net : Net;
  fs : gmap string Weights;
  log : list event
}.

Definition M (A : Type) : Type := World -> World * result A.

#[export] Instance M_ret : MRet M := fun A a w => (w, Ok a).
#[export] Instance M_bind : MBind M := fun A B f m w =>
  match m w with
  | (w', Ok a) => f a w'
  | (w', Raise e) => (w', Raise e)
  end.

Definition emit (e : event) : M unit := fun w =>
  ({| net := net w; fs := fs w; log := log w ++ [e] |}, Ok tt).

Definition print (m : message) : M unit := emit (Printed m).

(** A call of one of the passes on the model object. *)
Definition run_pass {A} (e : event) (pass : Net -> Net * result A) : M A := fun w =>
  let '(net', r) := pass (net w) in
  ({| net := net'; fs := fs w; log := log w ++ [e] |}, r).

(** [torch.save(model.state_dict(), path)]. *)
Definition torch_save (path : string) : M unit := fun w =>
  let sd := state_dict (net w) in
  ({| net := net w; fs := <[path := sd]> (fs w); log := log w ++ [Saved path sd] |}, Ok tt).

(** [torch.load(path)]. *)
Definition torch_load (path : string) : M Weights := fun w =>
  match fs w !! path with
  | Some sd => ({| net := net w; fs := fs w; log := log w ++ [Loaded path] |}, Ok sd)
  | None => (w, Raise (FileNotFoundError path))
  end.

Definition model_load_state_dict (sd : Weights) : M unit := fun w =>
  ({| net := load_state_dict (net w) sd; fs := fs w; log := log w |}, Ok tt).

(** Reading a local variable: unbound until first assigned. *)
Definition read_local {A} (name : string) (v : option A) : M A := fun w =>
  match v with
  | Some a => (w, Ok a)
  | None => (w, Raise (UnboundLocalError name))
  end.

(** The locals of [train_and_validate_model] that live across epochs.
    [valid_loss] is the one read outside the guarded block; [train_loss],
    [train_acc] and [valid_acc] are read only right after their assignment. *)
Record Locals := {
  min_valid_loss : pyfloat;
  total_loss_train : list pyfloat;
  total_loss_val : list pyfloat;
  total_acc_train : list pyfloat;
  total_acc_val : list pyfloat;
  stopping_ct : Z;
  valid_loss : option pyfloat
}.

Definition init_locals : Locals :=
  {| min_valid_loss := PInf;
     total_loss_train := []; total_loss_val := [];
     total_acc_train := []; total_acc_val := [];
     stopping_ct := 0;
     valid_loss := None |}.

(** Lines 98-101 with the assignment of line 96: the four appends, and
    [valid_loss] bound. *)
Definition record_passes (l : Locals) (train_loss train_acc valid_loss' valid_acc : pyfloat)
  : Locals :=
  {| min_valid_loss := min_valid_loss l;
     total_loss_train := total_loss_train l ++ [train_loss];
     total_loss_val := total_loss_val l ++ [valid_loss'];
     total_acc_train := total_acc_train l ++ [train_acc];
     total_acc_val := total_acc_val l ++ [valid_acc];
     stopping_ct := stopping_ct l;
     valid_loss := Some valid_loss' |}.

(** Lines 110 and 112: [min_valid_loss = valid_loss]; [stopping_ct = 0]. *)
Definition save_best (l : Locals) (v : pyfloat) : Locals :=
  {| min_valid_loss := v;
     total_loss_train := total_loss_train l;
     total_loss_val := total_loss_val l;
     total_acc_train := total_acc_train l;
     total_acc_val := total_acc_val l;
     stopping_ct := 0;
     valid_loss := valid_loss l |}.

(** Line 114: [stopping_ct += 1]. *)
Definition count_up (l : Locals) : Locals :=
  {| min_valid_loss := min_valid_loss l;
     total_loss_train := total_loss_train l;
     total_loss_val := total_loss_val l;
     total_acc_train := total_acc_train l;
     total_acc_val := total_acc_val l;
     stopping_ct := stopping_ct l + 1;
     valid_loss := valid_loss l |}.

Section Run.
Variables (train_loader val_loader : list Batch).
Variables (patience : Z) (model_filename : string) (verbose : bool).

(** Lines 94-106: the passes, guarded by [stopping_ct < patience]. *)
Definition guarded_passes (epoch : nat) (l : Locals) : M Locals :=
  if bool_decide (stopping_ct l < patience) then
    '(train_loss, train_acc) ← run_pass TrainPass (fun n => train_epoch n train_loader);
    '(valid_loss', valid_acc) ← run_pass ValidPass (fun n => validate_epoch n val_loader);
    (if verbose then
       print (EpochLine (Z.of_nat epoch + 1));;
       print (TrainingLine train_loss train_acc);;
       print (ValidationLine valid_loss' valid_acc);;
       print Rule
     else mret tt);;
    mret (record_passes l train_loss train_acc valid_loss' valid_acc)
  else mret l.

(** Lines 107-114: the checkpoint decision, outside the guard. *)
Definition checkpoint (l : Locals) : M Locals :=
  v ← read_local "valid_loss" (valid_loss l);
  if fgt (min_valid_loss l) v then
    print (DecreasedLine (min_valid_loss l) v);;
    print Rule;;
    torch_save model_filename;;
    mret (save_best l v)
  else
    mret (count_up l).

(** One turn of [for epoch in tqdm(range(epochs))]. *)
Definition epoch_body (l : Locals) (epoch : nat) : M Locals :=
  emit (Tick epoch);;
  l1 ← guarded_passes epoch l;
  checkpoint l1.

(** The [for] loop over the epochs handed out. *)
Fixpoint epoch_loop (epochs : list nat) (l : Locals) : M Locals :=
  match epochs with
  | [] => mret l
  | epoch :: rest => l' ← epoch_body l epoch; epoch_loop rest l'
  end.

(** [range(epochs)]. *)
Definition range (epochs : Z) : list nat := seq 0 (Z.to_nat epochs).

Definition train_and_validate_model (epochs : Z)
  : M (list pyfloat * list pyfloat * list pyfloat * list pyfloat) :=
  l ← epoch_loop (range epochs) init_locals;
  best_model_state ← torch_load model_filename;
  model_load_state_dict best_model_state;;
  mret (total_loss_train l, total_loss_val l, total_acc_train l, total_acc_val l).

End Run.
End Training.

(** ** Model construction *)

Module Init.
Section Init.

(** The torchvision side.  [Tensor] is the data of a parameter.  A model
    is its parameters outside the classification layer ([backbone]) and
    that layer ([head]: the attribute [fc] of a ResNet, [classifier] of a
    DenseNet). *)
Variable Tensor : Type.

Record Param := {
  value : Tensor;
  requires_grad : bool
}.

Record Linear := {
  in_features : nat;
  out_features : nat;
  weight : Param;
  bias : Param
}.

Inductive arch := ResNet50 | DenseNet121.

Record TVModel := {
  architecture : arch;
  backbone : list Param;
  head : Linear
}.

(** [nn.Parameter(t)]: trainable unless said otherwise. *)
Definition nn_Parameter (t : Tensor) : Param :=
  {| value := t; requires_grad := true |}.

(** The tensors torchvision and torch provide: the layers of an
    architecture (downloaded when [pretrained]), the shape of its last
    layer, and the initial values of a new linear layer. *)
Variable backbone_tensors : arch -> bool -> list Tensor.
Variable head_tensors : arch -> bool -> Tensor * Tensor.
Variable head_shape : arch -> nat * nat.
Variable linear_init : nat -> nat -> Tensor * Tensor.

(** [nn.Linear(i, o)]. *)
Definition nn_Linear (i o : nat) : Linear :=
  {| in_features := i; out_features := o;
     weight := nn_Parameter (linear_init i o).1;
     bias := nn_Parameter (linear_init i o).2 |}.

(** [models.resnet50(pretrained=p)] and [models.densenet121(pretrained=p)]. *)
Definition torchvision_model (a : arch) (p : bool) : TVModel :=
  {| architecture := a;
     backbone := nn_Parameter <$> backbone_tensors a p;
     head := {| in_features := (head_shape a).1;
                out_features := (head_shape a).2;
                weight := nn_Parameter (head_tensors a p).1;
                bias := nn_Parameter (head_tensors a p).2 |} |}.

(** [model.parameters()]. *)
Definition parameters (m : TVModel) : list Param :=
  backbone m ++ [weight (head m); bias (head m)].

(** [param.requires_grad = False]. *)
Definition freeze (p : Param) : Param :=
  {| value := value p; requires_grad := false |}.

Definition set_parameter_requires_grad (m : TVModel) (feature_extracting : bool)
  : TVModel :=
  if feature_extracting then
    {| architecture := architecture m;
       backbone := freeze <$> backbone m;
       head := {| in_features := in_features (head m);
                  out_features := out_features (head m);
                  weight := freeze (weight (head m));
                  bias := freeze (bias (head m)) |} |}
  else m.

(** [model_ft.fc = layer], [model_ft.classifier = layer]. *)
Definition set_head (m : TVModel) (layer : Linear) : TVModel :=
  {| architecture := architecture m; backbone := backbone m; head := layer |}.

Inductive event :=
| Constructed (a : arch) (pretrained : bool)
| Printed (m : message).

Definition invalid_name : string :=
  "Invalid model name, choose between 'resnet_pret', 'densenet_pret'.".

(** The events of a call, in order, and its outcome. *)
Definition initialise_model (model_name : string) (num_classes : nat)
    (feature_extract use_pretrained : bool) : list event * result TVModel :=
  if String.eqb model_name "resnet_pret" then
    let model_ft := torchvision_model ResNet50 use_pretrained in
    let model_ft := set_parameter_requires_grad model_ft feature_extract in
    let num_ftrs := in_features (head model_ft) in
    ([Constructed ResNet50 use_pretrained],
     Ok (set_head model_ft (nn_Linear num_ftrs num_classes)))
  else if String.eqb model_name "densenet_pret" then
    let model_ft := torchvision_model DenseNet121 use_pretrained in
    let model_ft := set_parameter_requires_grad model_ft feature_extract in
    let num_ftrs := in_features (head model_ft) in
    ([Constructed DenseNet121 use_pretrained],
     Ok (set_head model_ft (nn_Linear num_ftrs num_classes)))
  else
    ([Printed (Text invalid_name)], Raise SystemExit).

End Init.
End Init.

(** ** Reporting *)

Module Report.
Section Report.
Context `{T : Torch}.

(** The sklearn, numpy and pandas calls of [conf_report]. *)
Variables (Matrix Frame : Type).
Variable confusion_matrix : list nat -> list nat -> Matrix.
Variable row_normalised : Matrix -> Matrix.
Variable DataFrame : Matrix -> list string -> list string -> Frame.
Variable classification_report : list nat -> list nat -> list string -> string.

Inductive event :=
| Figure (width height : Z)
| Subplot (rows cols index : Z)
| HeatmapFrame (d : Frame) (fmt : string) (xticklabels yticklabels : list string)
| HeatmapMatrix (d : Matrix) (fmt : string) (xticklabels yticklabels : list string)
| Title (s : string)
| XLabel (s : string)
| YLabel (s : string)
| Savefig (path : string)
| Show
| Printed (s : string).

(** The variables the [for] loop of [conf_report] carries. *)
Record Collected := {
  model_cpu : Net;
  y_pred : list nat;
  y_true : list nat
}.

Definition collect_batch (st : Collected) (b : Batch) : Collected :=
  let '(net1, rows) := call (model_cpu st) (data b) in
  let output := outputs rows (data b) in
  {| model_cpu := net1;
     y_pred := y_pred st ++ (argmax <$> output);
     y_true := y_true st ++ labels b |}.

Definition collect (model_fitted : Net) (loader : list Batch) : Collected :=
  foldl collect_batch {| model_cpu := model_fitted; y_pred := []; y_true := [] |} loader.

Definition classes : list string :=
  ["akiec"; "bcc"; "bkl"; "df"; "mel"; "nv"; "vasc"].

Definition dashes : string :=
  "-------------------------------------------------------".

(** sklearn's [confusion_matrix], called as here without [labels], has one
    row and one column per class that occurs in [y_true] or [y_pred]. *)
Definition classes_seen (ys_true ys_pred : list nat) : nat :=
  length (remove_dups (ys_true ++ ys_pred)).

(** [pd.DataFrame(values, index=index, columns=columns)] on a square array
    of side [side]: values that do not fit the labels are a [ValueError]. *)
Definition pd_DataFrame (values : Matrix) (side : nat) (index columns : list string)
  : result Frame :=
  if bool_decide (side = length index /\ side = length columns)
  then Ok (DataFrame values index columns)
  else Raise ValueError.

(** The model object, the plotting and printing done, in order, and how the
    call ends. *)
Definition conf_report (model_fitted : Net) (loader : list Batch) (model_type : string)
  : Net * (list event * result unit) :=
  let st := collect model_fitted loader in
  let cf_matrix := confusion_matrix (y_true st) (y_pred st) in
  (model_cpu st,
   match pd_DataFrame (row_normalised cf_matrix)
                      (classes_seen (y_true st) (y_pred st)) classes classes with
   | Raise e => ([], Raise e)
   | Ok df_temp =>
       let report := classification_report (y_true st) (y_pred st) classes in
       ([ Figure 24 10;
          Subplot 1 2 1;
          HeatmapFrame df_temp ".3f" classes classes;
          Title "Normalized Confusion Matrix";
          XLabel "Predicted labels";
          YLabel "True labels";
          Subplot 1 2 2;
          HeatmapMatrix cf_matrix "g" classes classes;
          Title "Raw Confusion Matrix";
          XLabel "Predicted labels";
          YLabel "True labels";
          Savefig ("Confusion_Matrix_" +:+ model_type +:+ ".png");
          Show;
          Printed dashes;
          Printed ("Classification Report:" +:+ String "010"%char "");
          Printed report;
          Printed dashes ],
        Ok tt)
   end).

End Report.
End Report.

(** ** Notions the statements use *)

Section PassNotions.
Context `{T : Torch}.

(** The loss and the number of correct predictions of one batch, as the
    pass sees them when it reaches the batch in state [st]. *)
Definition batch_loss (st : Pass) (b : Batch) : pyfloat :=
  criterion (outputs (call (model st) (data b)).2 (data b)) (labels b).

Definition batch_hits (st : Pass) (b : Batch) : Z :=
  count_equal (predicted (outputs (call (model st) (data b)).2 (data b))) (labels b).

(** One (loss, hits) entry per batch, in the order the loader yields them;
    [step] moves the pass from one batch to the next. *)
Fixpoint observe (step : Pass -> Batch -> Pass) (st : Pass) (loader : list Batch)
  : list (pyfloat * Z) :=
  match loader with
  | [] => []
  | b :: rest => (batch_loss st b, batch_hits st b) :: observe step (step st b) rest
  end.

Definition start (net : Net) : Pass :=
  {| model := net; loss_sum := Fin 0; correct := 0; total := 0 |}.

(** Left-to-right float sum, from [0.0]. *)
Definition fsum (xs : list pyfloat) : pyfloat := foldl fadd (Fin 0) xs.

Definition zsum (xs : list Z) : Z := foldr Z.add 0 xs.

(** The outcome of a pass, from what it saw batch by batch. *)
Definition outcome (obs : list (pyfloat * Z)) (loader : list Batch)
  : result (pyfloat * pyfloat) :=
  avg ← float_truediv (fsum obs.*1) (len loader);
  acc ← int_truediv (100 * zsum obs.*2) (samples loader);
  mret (avg, acc).

(** The number of positions at which a prediction is the label. *)
Definition agreements (ps ls : list nat) : nat :=
  length (filter (fun pl : nat * nat => pl.1 = pl.2) (zip ps ls)).

(** A float within the closed interval [[0, 100]]. *)
Definition percent (a : pyfloat) : Prop :=
  fle (Fin 0) a = true /\ fle a (Fin 100) = true.

End PassNotions.

Section TrainingNotions.
Context `{T : Torch}.
Variables (train_loader val_loader : list Batch).

Definition is_tick (e : event) : bool :=
  match e with Tick _ => true | _ => false end.

Definition is_pass (e : event) : bool :=
  match e with TrainPass | ValidPass => true | _ => false end.

Definition is_save (e : event) : bool :=
  match e with Saved _ _ => true | _ => false end.

(** The world with further events. *)
Definition with_log (w : World) (evs : list event) : World :=
  {| net := net w; fs := fs w; log := log w ++ evs |}.

(** What a guarded block prints when [verbose]. *)
Definition verbose_lines (verbose : bool) (epoch : nat) (tl ta vl va : pyfloat)
  : list event :=
  if verbose then
    [Printed (EpochLine (Z.of_nat epoch + 1)); Printed (TrainingLine tl ta);
     Printed (ValidationLine vl va); Printed Rule]
  else [].

(** What the saving branch adds to the log. *)
Definition save_lines (path : string) (old new : pyfloat) (sd : Weights) : list event :=
  [Printed (DecreasedLine old new); Printed Rule; Saved path sd].

(** The model object after the two passes of one epoch. *)
Definition epoch_passes (n : Net) : Net :=
  (validate_epoch (train_epoch n train_loader).1 val_loader).1.

(** The model object after the passes of [k] epochs, from [n0]. *)
Definition epoch_net (n0 : Net) (k : nat) : Net := Nat.iter k epoch_passes n0.

(** The validation loss of the epoch whose passes start from [n]. *)
Definition epoch_valid_loss (n : Net) : result pyfloat :=
  '(v, _) ← (validate_epoch (train_epoch n train_loader).1 val_loader).2; mret v.

(** Position [j] holds the minimum of the losses [vl], first among equals:
    a number below [inf] that no loss of [vl] is strictly below and no
    earlier loss reaches. *)
Definition first_minimum (vl : list pyfloat) (j : nat) : Prop :=
  exists m, vl !! j = Some m /\ flt m PInf = true /\
    (forall v, v ∈ vl -> flt v m = false) /\
    (forall i v, (i < j)%nat -> vl !! i = Some v -> fle v m = false).

(** What the checkpoint file at [path] holds, given the world [w0] the run
    started from, the world [w] and locals [l] reached, and the events
    [evs] since: nothing from this run while no loss was below [inf]; else
    the weights of the epoch of the minimum, and [min_valid_loss] that
    minimum. *)
Definition best_so_far (path : string) (w0 w : World) (l : Locals) (evs : list event)
  : Prop :=
  (min_valid_loss l = PInf /\
   (forall v, v ∈ total_loss_val l -> flt v PInf = false) /\
   fs w !! path = fs w0 !! path /\
   Forall (fun e => is_save e = false) evs)
  \/
  (exists j, first_minimum (total_loss_val l) j /\
     total_loss_val l !! j = Some (min_valid_loss l) /\
     fs w !! path = Some (state_dict (epoch_net (net w0) (S j))) /\
     Saved path (state_dict (epoch_net (net w0) (S j))) ∈ evs).

(** What holds between the epochs of a run whose passes return: after [k]
    epochs from [w0], in world [w] with locals [l]. *)
Definition loop_inv (path : string) (w0 : World) (k : nat) (w : World) (l : Locals)
  : Prop :=
  exists evs,
    log w = log w0 ++ evs /\
    filter (fun e => is_tick e) evs = Tick <$> seq 0 k /\
    net w = epoch_net (net w0) (length (total_loss_val l)) /\
    (forall i v, total_loss_val l !! i = Some v ->
                 epoch_valid_loss (epoch_net (net w0) i) = Ok v) /\
    valid_loss l = last (total_loss_val l) /\
    (k = 0%nat -> stopping_ct l = 0) /\
    (k <> 0%nat -> total_loss_val l <> []) /\
    (forall v, valid_loss l = Some v -> fgt (min_valid_loss l) v = false) /\
    best_so_far path w0 w l evs.

End TrainingNotions.

Section RunNotions.
Context `{T : Torch}.
Variables (train_loader val_loader : list Batch).
Variables (patience : Z) (model_filename : string) (verbose : bool).

(** After the run from [w0], the checkpoint file holds the weights of an
    epoch whose validation loss no observed validation loss is below. *)
Definition checkpoint_of_minimum (epochs : Z) (w0 : World) : Prop :=
  exists l j m,
    (epoch_loop train_loader val_loader patience model_filename verbose
       (range epochs) init_locals w0).2 = Ok l /\
    total_loss_val l !! j = Some m /\
    (forall v, v ∈ total_loss_val l -> flt v m = false) /\
    fs (train_and_validate_model train_loader val_loader patience model_filename
          verbose epochs w0).1 !! model_filename
    = Some (state_dict (epoch_net train_loader val_loader (net w0) (S j))).

(** The run from [w0] saves a checkpoint at least once. *)
Definition saves_checkpoint (epochs : Z) (w0 : World) : Prop :=
  exists evs sd,
    log (train_and_validate_model train_loader val_loader patience model_filename
           verbose epochs w0).1 = log w0 ++ evs /\
    Saved model_filename sd ∈ evs.

End RunNotions.

(** ** A small instance

    A network that counts the optimiser steps taken; a sample is the
    schedule of losses the criterion reports on it, by step count.
    Arithmetic is exact (every rational counts as a float), which rounds
    nothing and so crosses nothing. *)
Module Toy.

(** The toy rounding keeps a rational as it is, in lowest terms. *)
Definition reduced (q : Q) : pyfloat := Fin (Qred q).

Lemma reduced_le_int (q : Q) (z : Z) :
  Z.abs z <= 2 ^ 53 -> (q <= inject_Z z)%Q -> fle (reduced q) (Fin (inject_Z z)) = true.
Proof.
  intros _ H. apply Qle_bool_iff. by rewrite Qred_correct.
Qed.

Lemma reduced_ge_int (q : Q) (z : Z) :
  Z.abs z <= 2 ^ 53 -> (inject_Z z <= q)%Q -> fle (Fin (inject_Z z)) (reduced q) = true.
Proof.
  intros _ H. apply Qle_bool_iff. by rewrite Qred_correct.
Qed.

Definition torch : Torch :=
  {| Net := nat;
     Weights := nat;
     Sample := nat -> pyfloat;
     Row := pyfloat;
     train_mode := fun n => n;
     eval_mode := fun n => n;
     call := fun n xs => (n, fun i => match xs !! i with Some s => s n | None => NaN end);
     argmax := fun _ => 0%nat;
     criterion := fun outs _ => match outs with r :: _ => r | [] => NaN end;
     optimise := fun n _ _ => S n;
     state_dict := fun n => n;
     load_state_dict := fun _ w => w;
     rnd := reduced;
     rnd_le_int := reduced_le_int;
     rnd_ge_int := reduced_ge_int |}.

(** A loader of one batch with one sample of class 0. *)
Definition loader (s : nat -> pyfloat) : list (@Batch torch) := [[(s, 0%nat)]].

Definition constant (x : pyfloat) : nat -> pyfloat := fun _ => x.

(** Two batches, of two and three samples: batch losses 3 and 1, and three
    of the five labels are the class 0 the network predicts. *)
Definition mixed : list (@Batch torch) :=
  [[(constant (Fin 3), 0%nat); (constant (Fin 9), 1%nat)];
   [(constant (Fin 1), 0%nat); (constant (Fin 9), 0%nat); (constant (Fin 9), 2%nat)]].

(** Losses 3, 1, 2 after the first, second and third step. *)
Definition dip : nat -> pyfloat := fun n =>
  match n with
  | 1%nat => Fin 3
  | 2%nat => Fin 1
  | _ => Fin 2
  end.

Definition world (files : gmap string nat) : @World torch :=
  @Build_World torch 0%nat files [].

(** The toy run: both loaders, patience, epochs and the files at the start;
    the checkpoint goes to [best.pt], quietly. *)
Definition run (train val : list (@Batch torch)) (patience epochs : Z)
    (files : gmap string nat) :=
  @train_and_validate_model torch train val patience "best.pt" false epochs (world files).

(** Its epoch loop, up to epoch [k]. *)
Definition upto (train val : list (@Batch torch)) (patience : Z) (k : nat)
    (files : gmap string nat) :=
  @epoch_loop torch train val patience "best.pt" false (seq 0 k) init_locals (world files).

(** World and locals after three epochs of losses 3, 1, 2 with patience 1. *)
Definition world3 : @World torch :=
  Eval vm_compute in (upto (loader dip) (loader dip) 1 3 ∅).1.
Definition locals3 : @Locals :=
  Eval vm_compute in
    match (upto (loader dip) (loader dip) 1 3 ∅).2 with
    | Ok l => l
    | Raise _ => init_locals
    end.

(** A checkpoint left behind by an earlier run. *)
Definition stale : gmap string nat := {["best.pt" := 99%nat]}.

(** Toy tensors for the two architectures. *)
Definition backbone_tensors (a : Init.arch) (pretrained : bool) : list nat :=
  [1; 2; 3]%nat.
Definition head_tensors (a : Init.arch) (pretrained : bool) : nat * nat := (4, 5)%nat.
Definition head_shape (a : Init.arch) : nat * nat :=
  match a with
  | Init.ResNet50 => (2048, 1000)%nat
  | Init.DenseNet121 => (1024, 1000)%nat
  end.
Definition linear_init (i o : nat) : nat * nat := (0, 0)%nat.

Definition initialise :=
  Init.initialise_model nat backbone_tensors head_tensors head_shape linear_init.

(** A toy report: the matrix and the frame are what they were made from. *)
Definition report :=
  @Report.conf_report torch (list nat * list nat)
    (list nat * list nat * list string * list string)
    (fun ys_true ys_pred => (ys_true, ys_pred)) (fun m => m)
    (fun m index columns => (m, index, columns))
    (fun _ _ _ => "report").

(** One batch with a sample of each of the seven classes. *)
Definition seven : list (@Batch torch) :=
  [[(constant (Fin 1), 0%nat); (constant (Fin 1), 1%nat); (constant (Fin 1), 2%nat);
    (constant (Fin 1), 3%nat); (constant (Fin 1), 4%nat); (constant (Fin 1), 5%nat);
    (constant (Fin 1), 6%nat)]].

End Toy.

(** ** Further notions *)

Section FurtherNotions.
Context `{T : Torch}.

(** The four metric lists are as long as one another. *)
Definition same_lengths (l : Locals) : Prop :=
  length (total_loss_train l) = length (total_loss_val l) /\
  length (total_acc_train l) = length (total_loss_val l) /\
  length (total_acc_val l) = length (total_loss_val l).

(** How the patience budget is spent after [k] epochs: [base] epochs up to
    and including the last save (none while nothing was saved), then one
    count per epoch, of which the first [patience] ran their passes. *)
Definition budget_spent (patience : Z) (k : nat) (l : Locals) : Prop :=
  exists base : nat,
    0 <= stopping_ct l /\
    Z.of_nat k = Z.of_nat base + stopping_ct l /\
    Z.of_nat (length (total_loss_val l))
    = Z.of_nat base + Z.min (stopping_ct l) patience /\
    ((base = 0%nat /\ min_valid_loss l = PInf /\
      forall v, v ∈ total_loss_val l -> flt v PInf = false)
     \/
     (exists j, base = S j /\ first_minimum (total_loss_val l) j /\
        total_loss_val l !! j = Some (min_valid_loss l))).

(** A "Validation Loss Decreased" line that reports a strict decrease; any
    other event. *)
Definition honest_decrease (e : event) : Prop :=
  match e with
  | Printed (DecreasedLine old new) => flt new old = true
  | _ => True
  end.

(** The predictions [conf_report] gathers, batch by batch, as the model
    object moves from call to call. *)
Fixpoint batch_predictions (net : Net) (loader : list Batch) : list (list nat) :=
  match loader with
  | [] => []
  | b :: rest =>
      predicted (outputs (call net (data b)).2 (data b))
      :: batch_predictions (call net (data b)).1 rest
  end.

End FurtherNotions.

(** * Properties *)

(** ** Floats and divisions *)

Lemma flt_irrefl a : flt a a = false.
Proof.
  destruct a as [q| | |]; simpl; try reflexivity.
  apply negb_false_iff, Qle_bool_iff, Qle_refl.
Qed.

Lemma flt_number_l a b : flt a b = true -> is_nan a = false.
Proof. destruct a, b; simpl; congruence. Qed.

(** Between numbers, "not above" is [<=]. *)
Lemma fle_of_not_fgt a b :
  is_nan a = false -> is_nan b = false -> fgt a b = false -> fle a b = true.
Proof.
  unfold fgt. destruct a as [x| | |], b as [y| | |]; simpl; try congruence; intros _ _ H.
  - apply negb_false_iff in H. exact H.
Qed.

Lemma flt_trans a b c : flt a b = true -> flt b c = true -> flt a c = true.
Proof.
  destruct a as [x| | |], b as [y| | |], c as [z| | |]; simpl; try congruence.
  rewrite !negb_true_iff. intros H1 H2.
  destruct (Qle_bool z x) eqn:E; [|reflexivity].
  apply Qle_bool_iff in E.
  assert (Hxy : (x < y)%Q).
  { apply Qnot_le_lt. intros H. apply Qle_bool_iff in H. congruence. }
  assert (Hyz : (y < z)%Q).
  { apply Qnot_le_lt. intros H. apply Qle_bool_iff in H. congruence. }
  exfalso. apply (Qlt_irrefl x).
  eapply Qlt_le_trans; [|exact E]. eapply Qlt_trans; eassumption.
Qed.

Lemma fle_flt_trans a b c : fle a b = true -> flt b c = true -> flt a c = true.
Proof.
  destruct a as [x| | |], b as [y| | |], c as [z| | |]; simpl; try congruence.
  rewrite !negb_true_iff. intros H1 H2.
  destruct (Qle_bool z x) eqn:E; [|reflexivity].
  apply Qle_bool_iff in E, H1.
  assert (Hyz : (y < z)%Q).
  { apply Qnot_le_lt. intros H. apply Qle_bool_iff in H. congruence. }
  exfalso. apply (Qlt_irrefl y).
  eapply Qlt_le_trans; [exact Hyz|]. eapply Qle_trans; eassumption.
Qed.

Section DivisionFacts.
Context `{T : Torch}.

Lemma int_truediv_ok a b : b <> 0 -> int_truediv a b = Ok (rnd (inject_Z a / inject_Z b)).
Proof. intros H. unfold int_truediv. destruct (Z.eqb_spec b 0); [contradiction|reflexivity]. Qed.

Lemma int_truediv_zero a : int_truediv a 0 = Raise ZeroDivisionError.
Proof. reflexivity. Qed.

Lemma float_truediv_ok x n : n <> 0 -> exists y, float_truediv x n = Ok y.
Proof.
  intros H. unfold float_truediv. destruct (Z.eqb_spec n 0); [contradiction|eauto].
Qed.

(** A quotient of counts [100 * c / t] with [0 <= c <= t] is a percentage. *)
Lemma percent_of_counts c t a :
  0 <= c <= t -> int_truediv (100 * c) t = Ok a -> percent a.
Proof.
  intros [Hc Ht] H. unfold int_truediv in H.
  destruct (Z.eqb_spec t 0) as [|Hne]; [discriminate|].
  injection H as <-.
  assert (Hpos : (0 < inject_Z t)%Q).
  { change 0%Q with (inject_Z 0). rewrite <- Zlt_Qlt. lia. }
  split.
  - apply (rnd_ge_int _ 0); [simpl; lia|].
    apply Qle_shift_div_l; [exact Hpos|].
    rewrite Qmult_0_l. change 0%Q with (inject_Z 0). rewrite <- Zle_Qle. lia.
  - apply (rnd_le_int _ 100); [simpl; lia|].
    apply Qle_shift_div_r; [exact Hpos|].
    rewrite <- inject_Z_mult, <- Zle_Qle. lia.
Qed.

End DivisionFacts.

(** ** The passes *)

Section PassFacts.
Context `{T : Torch}.

Lemma count_equal_bounds ps ls : 0 <= count_equal ps ls <= len ls.
Proof.
  unfold len. revert ls. induction ps as [|p ps IH]; intros [|l ls]; simpl; try lia.
  specialize (IH ls). case_bool_decide; lia.
Qed.

Lemma len_labels (b : Batch) : len (labels b) = len b.
Proof. unfold len, labels. by rewrite length_fmap. Qed.

Lemma batch_hits_bounds st b : 0 <= batch_hits st b <= len b.
Proof. unfold batch_hits. rewrite <- len_labels. apply count_equal_bounds. Qed.

Lemma samples_cons (b : Batch) (loader : list Batch) :
  samples (b :: loader) = len b + samples loader.
Proof. reflexivity. Qed.

Lemma samples_nonneg (loader : list Batch) : 0 <= samples loader.
Proof. induction loader; [done|]. rewrite samples_cons. unfold len. lia. Qed.

Lemma samples_pos_len (loader : list Batch) : 0 < samples loader -> len loader <> 0.
Proof. destruct loader; [simpl; lia|]. unfold len. simpl. lia. Qed.

(** What the three loop bodies share: each counts the batch once. *)
Section Counting.
Variable step : Pass -> Batch -> Pass.
Hypothesis step_total : forall st b, total (step st b) = total st + len b.
Hypothesis step_correct : forall st b, correct (step st b) = correct st + batch_hits st b.

Lemma observe_length st loader : length (observe step st loader) = length loader.
Proof. revert st. induction loader as [|b rest IH]; intros st; simpl; [done|]. by rewrite IH. Qed.

Lemma foldl_total st loader : total (foldl step st loader) = total st + samples loader.
Proof.
  revert st. induction loader as [|b rest IH]; intros st; [simpl; lia|].
  rewrite samples_cons. simpl. rewrite IH, step_total. lia.
Qed.

Lemma foldl_correct st loader :
  correct (foldl step st loader) = correct st + zsum (observe step st loader).*2.
Proof.
  revert st. induction loader as [|b rest IH]; intros st; [simpl; lia|].
  change (correct (foldl step (step st b) rest)
          = correct st + (batch_hits st b + zsum (observe step (step st b) rest).*2)).
  rewrite IH, step_correct. lia.
Qed.

Lemma hits_bounds st loader :
  0 <= zsum (observe step st loader).*2 <= samples loader.
Proof.
  revert st. induction loader as [|b rest IH]; intros st; [done|].
  specialize (IH (step st b)). pose proof (batch_hits_bounds st b).
  change (0 <= batch_hits st b + zsum (observe step (step st b) rest).*2
          <= len b + samples rest). lia.
Qed.

Hypothesis step_loss : forall st b, loss_sum (step st b) = fadd (loss_sum st) (batch_loss st b).

Lemma foldl_loss st loader :
  loss_sum (foldl step st loader) = foldl fadd (loss_sum st) (observe step st loader).*1.
Proof.
  revert st. induction loader as [|b rest IH]; intros st; simpl; [done|].
  by rewrite IH, step_loss.
Qed.

End Counting.

Lemma train_batch_total st b : total (train_batch st b) = total st + len b.
Proof. unfold train_batch. destruct (call _ _). simpl. by rewrite len_labels. Qed.

Lemma train_batch_correct st b : correct (train_batch st b) = correct st + batch_hits st b.
Proof. unfold train_batch, batch_hits. by destruct (call _ _). Qed.

Lemma train_batch_loss st b : loss_sum (train_batch st b) = fadd (loss_sum st) (batch_loss st b).
Proof. unfold train_batch, batch_loss. by destruct (call _ _). Qed.

Lemma validate_batch_total st b : total (validate_batch st b) = total st + len b.
Proof. unfold validate_batch. destruct (call _ _). simpl. by rewrite len_labels. Qed.

Lemma validate_batch_correct st b :
  correct (validate_batch st b) = correct st + batch_hits st b.
Proof. unfold validate_batch, batch_hits. by destruct (call _ _). Qed.

Lemma validate_batch_loss st b :
  loss_sum (validate_batch st b) = fadd (loss_sum st) (batch_loss st b).
Proof. unfold validate_batch, batch_loss. by destruct (call _ _). Qed.

Lemma test_batch_total st b : total (test_batch st b) = total st + len b.
Proof. unfold test_batch. destruct (call _ _). simpl. by rewrite len_labels. Qed.

Lemma test_batch_correct st b : correct (test_batch st b) = correct st + batch_hits st b.
Proof. unfold test_batch, batch_hits. by destruct (call _ _). Qed.

Lemma train_epoch_outcome net loader :
  (train_epoch net loader).2
  = outcome (observe train_batch (start (train_mode net)) loader) loader.
Proof.
  unfold train_epoch, outcome, fsum; simpl. fold (start (train_mode net)).
  rewrite (foldl_loss _ train_batch_loss), (foldl_total _ train_batch_total).
  rewrite (foldl_correct _ train_batch_correct). simpl.
  by rewrite !Z.add_0_l.
Qed.

Lemma validate_epoch_outcome net loader :
  (validate_epoch net loader).2
  = outcome (observe validate_batch (start (eval_mode net)) loader) loader.
Proof.
  unfold validate_epoch, outcome, fsum; simpl. fold (start (eval_mode net)).
  rewrite (foldl_loss _ validate_batch_loss), (foldl_total _ validate_batch_total).
  rewrite (foldl_correct _ validate_batch_correct). simpl.
  by rewrite !Z.add_0_l.
Qed.

Lemma outcome_ok obs loader :
  0 < samples loader ->
  exists avg,
    float_truediv (fsum obs.*1) (len loader) = Ok avg /\
    outcome obs loader
    = Ok (avg, rnd (inject_Z (100 * zsum obs.*2) / inject_Z (samples loader))).
Proof.
  intros Hs. destruct (float_truediv_ok (fsum obs.*1) (len loader)) as [avg Havg].
  { by apply samples_pos_len. }
  exists avg. split; [done|]. unfold outcome. rewrite Havg. simpl.
  rewrite int_truediv_ok by lia. done.
Qed.

Lemma train_epoch_ok net loader :
  0 < samples loader -> exists l a, (train_epoch net loader).2 = Ok (l, a).
Proof.
  intros Hs. rewrite train_epoch_outcome.
  destruct (outcome_ok (observe train_batch (start (train_mode net)) loader) loader Hs)
    as (avg & _ & ->). eauto.
Qed.

Lemma validate_epoch_ok net loader :
  0 < samples loader -> exists l a, (validate_epoch net loader).2 = Ok (l, a).
Proof.
  intros Hs. rewrite validate_epoch_outcome.
  destruct (outcome_ok (observe validate_batch (start (eval_mode net)) loader) loader Hs)
    as (avg & _ & ->). eauto.
Qed.

Lemma outcome_percent obs loader l a :
  0 <= zsum obs.*2 <= samples loader -> outcome obs loader = Ok (l, a) -> percent a.
Proof.
  intros Hb H. unfold outcome in H.
  destruct (float_truediv _ _); simpl in H; [|discriminate].
  destruct (int_truediv _ _) eqn:E; simpl in H; [|discriminate].
  injection H as _ <-. eapply percent_of_counts; eauto.
Qed.

Lemma float_truediv_value x n :
  0 < n ->
  float_truediv x n
  = Ok match x with
       | Fin q => rnd (q / inject_Z n)
       | PInf => PInf
       | NInf => NInf
       | NaN => NaN
       end.
Proof.
  intros Hn. unfold float_truediv.
  destruct (Z.eqb_spec n 0); [lia|]. destruct (Z.ltb_spec 0 n); [|lia]. by destruct x.
Qed.

Lemma count_equal_agreements ps ls : count_equal ps ls = Z.of_nat (agreements ps ls).
Proof.
  unfold agreements. revert ls. induction ps as [|p ps IH]; intros [|l ls]; try done.
  change (count_equal (p :: ps) (l :: ls))
    with ((if bool_decide (p = l) then 1 else 0) + count_equal ps ls).
  change (zip (p :: ps) (l :: ls)) with ((p, l) :: zip ps ls).
  rewrite IH. case_bool_decide as E.
  - rewrite filter_cons_True by done. simpl length. lia.
  - rewrite filter_cons_False by done. lia.
Qed.

Lemma fsum_snoc xs y : fsum (xs ++ [y]) = fadd (fsum xs) y.
Proof. unfold fsum. by rewrite foldl_app. Qed.

Lemma fsum_take_S xs i q x :
  xs !! i = Some (Fin q) -> fsum (take i xs) = Fin x ->
  fsum (take (S i) xs) = rnd (x + q).
Proof.
  intros Hi Hx. rewrite (take_S_r _ _ _ Hi), fsum_snoc, Hx. done.
Qed.

Lemma len_pos_of_samples (loader : list Batch) : 0 < samples loader -> 0 < len loader.
Proof. intros H. pose proof (samples_pos_len loader H). unfold len in *. lia. Qed.

(** C3. On a loader that yields samples, [train_epoch] and
    [validate_epoch] visit every batch once, in order.  Each batch adds its
    loss to the running total (the float nearest the exact sum) and, to the
    correct count, the number of its samples whose prediction is their
    label.  The pass returns the total loss divided by the number of
    batches, and 100 times the correct count divided by the number of
    samples, each the float nearest the exact quotient. *)
Theorem epoch_passes_return_mean_loss_and_accuracy (net : Net) (loader : list Batch) :
  0 < samples loader ->
  let seen_t := observe train_batch (start (train_mode net)) loader in
  let seen_v := observe validate_batch (start (eval_mode net)) loader in
  let mean (total : pyfloat) :=
    match total with
    | Fin q => rnd (q / inject_Z (len loader))
    | PInf => PInf
    | NInf => NInf
    | NaN => NaN
    end in
  let percentage (hits : Z) := rnd (inject_Z (100 * hits) / inject_Z (samples loader)) in
  length seen_t = length loader /\
  length seen_v = length loader /\
  (train_epoch net loader).2
  = Ok (mean (fsum seen_t.*1), percentage (zsum seen_t.*2)) /\
  (validate_epoch net loader).2
  = Ok (mean (fsum seen_v.*1), percentage (zsum seen_v.*2)) /\
  (forall losses i q x,
     losses !! i = Some (Fin q) -> fsum (take i losses) = Fin x ->
     fsum (take (S i) losses) = rnd (x + q)) /\
  (forall st b,
     batch_hits st b
     = Z.of_nat (agreements (predicted (outputs (call (model st) (data b)).2 (data b)))
                            (labels b))).
Proof.
  intros Hs seen_t seen_v mean percentage. subst seen_t seen_v mean percentage.
  split; [apply observe_length|]. split; [apply observe_length|].
  pose proof (len_pos_of_samples loader Hs) as Hlen.
  split; [|split; [|split]].
  - rewrite train_epoch_outcome.
    destruct (outcome_ok (observe train_batch (start (train_mode net)) loader) loader Hs)
      as (avg & Havg & ->).
    rewrite float_truediv_value in Havg by done. by injection Havg as <-.
  - rewrite validate_epoch_outcome.
    destruct (outcome_ok (observe validate_batch (start (eval_mode net)) loader) loader Hs)
      as (avg & Havg & ->).
    rewrite float_truediv_value in Havg by done. by injection Havg as <-.
  - apply fsum_take_S.
  - intros st b. apply count_equal_agreements.
Qed.

(** C4. Whatever the loader, an accuracy that [train_epoch],
    [validate_epoch] or [test_model] returns lies in the closed interval
    from 0 to 100; and on a loader that yields samples each of them does
    return one. *)
Theorem accuracy_within_0_100 (net : Net) (loader : list Batch) :
  (forall l a, (train_epoch net loader).2 = Ok (l, a) -> percent a) /\
  (forall l a, (validate_epoch net loader).2 = Ok (l, a) -> percent a) /\
  (forall a, (test_model net loader).2 = Ok a -> percent a) /\
  (0 < samples loader ->
   (exists l a, (train_epoch net loader).2 = Ok (l, a)) /\
   (exists l a, (validate_epoch net loader).2 = Ok (l, a)) /\
   (exists a, (test_model net loader).2 = Ok a)).
Proof.
  split; [|split; [|split]].
  - intros l a. rewrite train_epoch_outcome. apply outcome_percent.
    apply hits_bounds.
  - intros l a. rewrite validate_epoch_outcome. apply outcome_percent.
    apply hits_bounds.
  - intros a. unfold test_model; simpl. fold (start (eval_mode net)).
    rewrite (foldl_total _ test_batch_total), (foldl_correct _ test_batch_correct).
    simpl. rewrite !Z.add_0_l. apply percent_of_counts. apply hits_bounds.
  - intros Hs. split; [by apply train_epoch_ok|]. split; [by apply validate_epoch_ok|].
    unfold test_model; simpl. fold (start (eval_mode net)).
    rewrite (foldl_total _ test_batch_total). simpl.
    rewrite int_truediv_ok by lia. eauto.
Qed.

End PassFacts.

(** ** The epoch loop *)

Section TrainingFacts.
Context `{T : Torch}.
Variables (train_loader val_loader : list Batch).
Variables (patience : Z) (model_filename : string) (verbose : bool).

#[local] Arguments train_epoch : simpl never.
#[local] Arguments validate_epoch : simpl never.

Local Abbreviation body := (epoch_body train_loader val_loader patience model_filename verbose).
Local Abbreviation loop := (epoch_loop train_loader val_loader patience model_filename verbose).
Local Abbreviation enet := (epoch_net train_loader val_loader).

Lemma with_log_nil w : with_log w [] = w.
Proof. destruct w. unfold with_log. simpl. by rewrite app_nil_r. Qed.

Lemma with_log_app w xs ys : with_log (with_log w xs) ys = with_log w (xs ++ ys).
Proof. unfold with_log. simpl. by rewrite app_assoc. Qed.

Lemma loop_cons x xs l w :
  loop (x :: xs) l w
  = match body l x w with
    | (w', Ok l') => loop xs l' w'
    | (w', Raise e) => (w', Raise e)
    end.
Proof. reflexivity. Qed.

Lemma loop_app xs ys l w :
  loop (xs ++ ys) l w
  = match loop xs l w with
    | (w', Ok l') => loop ys l' w'
    | (w', Raise e) => (w', Raise e)
    end.
Proof.
  revert l w. induction xs as [|x xs IH]; intros l w; [done|].
  change ((x :: xs) ++ ys) with (x :: (xs ++ ys)). rewrite !loop_cons.
  destruct (body l x w) as [w1 [l1|e]]; [apply IH|done].
Qed.

(** An epoch entered with the budget spent and [valid_loss] bound to a loss
    that is no improvement: only the tick and the counter. *)
Lemma body_skip l k w v :
  patience <= stopping_ct l -> valid_loss l = Some v ->
  fgt (min_valid_loss l) v = false ->
  body l k w = (with_log w [Tick k], Ok (count_up l)).
Proof.
  intros Hp Hv Hgt. unfold epoch_body, guarded_passes, checkpoint.
  rewrite bool_decide_eq_false_2 by lia.
  unfold mbind, M_bind, mret, M_ret, emit, read_local; simpl.
  by rewrite Hv, Hgt.
Qed.

(** An epoch entered with the budget spent and [valid_loss] never bound. *)
Lemma body_unbound l k w :
  patience <= stopping_ct l -> valid_loss l = None ->
  body l k w = (with_log w [Tick k], Raise (UnboundLocalError "valid_loss")).
Proof.
  intros Hp Hv. unfold epoch_body, guarded_passes, checkpoint.
  rewrite bool_decide_eq_false_2 by lia.
  unfold mbind, M_bind, mret, M_ret, emit, read_local; simpl.
  by rewrite Hv.
Qed.

(** An epoch whose two passes return. *)
Lemma body_pass l k w n1 tl ta n2 v va :
  stopping_ct l < patience ->
  train_epoch (net w) train_loader = (n1, Ok (tl, ta)) ->
  validate_epoch n1 val_loader = (n2, Ok (v, va)) ->
  let l1 := record_passes l tl ta v va in
  let evs := [Tick k; TrainPass; ValidPass] ++ verbose_lines verbose k tl ta v va in
  body l k w
  = if fgt (min_valid_loss l) v then
      ({| net := n2;
          fs := <[model_filename := state_dict n2]> (fs w);
          log := log w ++ evs
                 ++ save_lines model_filename (min_valid_loss l) v (state_dict n2) |},
       Ok (save_best l1 v))
    else
      ({| net := n2; fs := fs w; log := log w ++ evs |}, Ok (count_up l1)).
Proof.
  intros Hp Ht Hv l1 evs. unfold epoch_body, guarded_passes, checkpoint.
  rewrite bool_decide_eq_true_2 by lia.
  unfold mbind, M_bind, mret, M_ret, emit, run_pass, read_local, print, emit, torch_save;
    cbn.
  rewrite Ht; cbn. rewrite Hv; cbn.
  subst evs l1. unfold verbose_lines, save_lines.
  destruct verbose; simpl; destruct (fgt (min_valid_loss l) v); simpl;
    rewrite <- ?app_assoc; reflexivity.
Qed.

(** A pass that raises ends the epoch, and the run. *)
Lemma body_train_raises l k w n1 e :
  stopping_ct l < patience ->
  train_epoch (net w) train_loader = (n1, Raise e) ->
  body l k w
  = ({| net := n1; fs := fs w; log := log w ++ [Tick k; TrainPass] |}, Raise e).
Proof.
  intros Hp Ht. unfold epoch_body, guarded_passes.
  rewrite bool_decide_eq_true_2 by lia.
  unfold mbind, M_bind, mret, M_ret, emit, run_pass; cbn.
  rewrite Ht; cbn. by rewrite <- app_assoc.
Qed.

Lemma body_validate_raises l k w n1 tl ta n2 e :
  stopping_ct l < patience ->
  train_epoch (net w) train_loader = (n1, Ok (tl, ta)) ->
  validate_epoch n1 val_loader = (n2, Raise e) ->
  body l k w
  = ({| net := n2; fs := fs w; log := log w ++ [Tick k; TrainPass; ValidPass] |}, Raise e).
Proof.
  intros Hp Ht Hv. unfold epoch_body, guarded_passes.
  rewrite bool_decide_eq_true_2 by lia.
  unfold mbind, M_bind, mret, M_ret, emit, run_pass; cbn.
  rewrite Ht; cbn. rewrite Hv; cbn. by rewrite <- !app_assoc.
Qed.

End TrainingFacts.

Section LoopFacts.
Context `{T : Torch}.
Variables (train_loader val_loader : list Batch).
Variables (patience : Z) (model_filename : string) (verbose : bool).

#[local] Arguments train_epoch : simpl never.
#[local] Arguments validate_epoch : simpl never.

Local Abbreviation body := (epoch_body train_loader val_loader patience model_filename verbose).
Local Abbreviation loop := (epoch_loop train_loader val_loader patience model_filename verbose).
Local Abbreviation run :=
  (train_and_validate_model train_loader val_loader patience model_filename verbose).
Local Abbreviation enet := (epoch_net train_loader val_loader).

Lemma range_pos epochs : 1 <= epochs -> range epochs = 0%nat :: seq 1 (Z.to_nat epochs - 1).
Proof.
  intros H. unfold range. destruct (Z.to_nat epochs) as [|n] eqn:E; [lia|].
  simpl. by rewrite Nat.sub_0_r.
Qed.

Lemma run_unfold epochs w :
  run epochs w
  = match loop (range epochs) init_locals w with
    | (w1, Ok l) =>
        match fs w1 !! model_filename with
        | Some sd =>
            ({| net := load_state_dict (net w1) sd; fs := fs w1;
                log := log w1 ++ [Loaded model_filename] |},
             Ok (total_loss_train l, total_loss_val l, total_acc_train l, total_acc_val l))
        | None => (w1, Raise (FileNotFoundError model_filename))
        end
    | (w1, Raise e) => (w1, Raise e)
    end.
Proof.
  unfold train_and_validate_model, mbind, M_bind.
  destruct (loop _ _ _) as [w1 [l|e]]; [|done].
  unfold torch_load. destruct (fs w1 !! model_filename); done.
Qed.

(** The counter after [n] further epochs that only count. *)
Lemma count_up_iter_ct n l :
  stopping_ct (Nat.iter n count_up l) = stopping_ct l + Z.of_nat n.
Proof. induction n as [|n IH]; simpl; [lia|]. rewrite IH. lia. Qed.

Lemma count_up_iter_min n l :
  min_valid_loss (Nat.iter n count_up l) = min_valid_loss l.
Proof. induction n as [|n IH]; simpl; [done|]. exact IH. Qed.

Lemma count_up_iter_valid_loss n l :
  valid_loss (Nat.iter n count_up l) = valid_loss l.
Proof. induction n as [|n IH]; simpl; [done|]. exact IH. Qed.

Lemma count_up_iter_comm n l : Nat.iter n count_up (count_up l) = count_up (Nat.iter n count_up l).
Proof. induction n as [|n IH]; simpl; [done|]. by rewrite IH. Qed.

(** With the budget spent, [valid_loss] bound and no improvement pending,
    the remaining epochs only tick and count. *)
Lemma loop_frozen es l w v :
  patience <= stopping_ct l -> valid_loss l = Some v ->
  fgt (min_valid_loss l) v = false ->
  loop es l w = (with_log w (Tick <$> es), Ok (Nat.iter (length es) count_up l)).
Proof.
  revert l w. induction es as [|k es IH]; intros l w Hp Hv Hgt.
  - simpl. by rewrite with_log_nil.
  - rewrite loop_cons, (body_skip _ _ _ _ _ _ _ _ v) by done.
    rewrite (IH (count_up l)); [|simpl; lia|done|done].
    rewrite with_log_app. simpl. by rewrite count_up_iter_comm.
Qed.

(** Every epoch that completes leaves [valid_loss] bound to a loss that the
    comparison of line 107 rejects. *)
Lemma body_settles l k w w' l' :
  body l k w = (w', Ok l') ->
  exists v, valid_loss l' = Some v /\ fgt (min_valid_loss l') v = false.
Proof.
  intros H. destruct (Z.lt_ge_cases (stopping_ct l) patience) as [Hp|Hp].
  - destruct (train_epoch (net w) train_loader) as [n1 [[tl ta]|e]] eqn:Ht.
    + destruct (validate_epoch n1 val_loader) as [n2 [[v va]|e]] eqn:Hv.
      * rewrite (body_pass _ _ _ _ _ _ _ _ _ _ _ _ _ _ Hp Ht Hv) in H.
        exists v. destruct (fgt (min_valid_loss l) v) eqn:Hgt;
          injection H as _ <-; simpl; split; try done.
        apply flt_irrefl.
      * by rewrite (body_validate_raises _ _ _ _ _ _ _ _ _ _ _ _ _ Hp Ht Hv) in H.
    + by rewrite (body_train_raises _ _ _ _ _ _ _ _ _ _ Hp Ht) in H.
  - destruct (valid_loss l) as [v|] eqn:Hv.
    + destruct (fgt (min_valid_loss l) v) eqn:Hgt.
      * revert H. unfold epoch_body, guarded_passes, checkpoint.
        rewrite bool_decide_eq_false_2 by lia.
        unfold mbind, M_bind, mret, M_ret, emit, read_local, print, emit, torch_save; cbn.
        rewrite Hv, Hgt. intros H. injection H as _ <-. simpl.
        exists v. split; [done|]. apply flt_irrefl.
      * rewrite (body_skip _ _ _ _ _ _ _ _ v) in H by done.
        injection H as _ <-. simpl. eauto.
    + by rewrite body_unbound in H.
Qed.

(** [min_valid_loss] is never [nan]: it starts as [inf] and is only ever
    replaced by a loss that compared strictly below it. *)
Lemma body_min_number l k w w' l' :
  body l k w = (w', Ok l') ->
  is_nan (min_valid_loss l) = false -> is_nan (min_valid_loss l') = false.
Proof.
  intros H Hnum. destruct (Z.lt_ge_cases (stopping_ct l) patience) as [Hp|Hp].
  - destruct (train_epoch (net w) train_loader) as [n1 [[tl ta]|e]] eqn:Ht.
    + destruct (validate_epoch n1 val_loader) as [n2 [[v va]|e]] eqn:Hv.
      * rewrite (body_pass _ _ _ _ _ _ _ _ _ _ _ _ _ _ Hp Ht Hv) in H.
        destruct (fgt (min_valid_loss l) v) eqn:Hgt;
          injection H as _ <-; simpl; [|done].
        by eapply flt_number_l.
      * by rewrite (body_validate_raises _ _ _ _ _ _ _ _ _ _ _ _ _ Hp Ht Hv) in H.
    + by rewrite (body_train_raises _ _ _ _ _ _ _ _ _ _ Hp Ht) in H.
  - destruct (valid_loss l) as [v|] eqn:Hv.
    + destruct (fgt (min_valid_loss l) v) eqn:Hgt.
      * revert H. unfold epoch_body, guarded_passes, checkpoint.
        rewrite bool_decide_eq_false_2 by lia.
        unfold mbind, M_bind, mret, M_ret, emit, read_local, print, emit, torch_save; cbn.
        rewrite Hv, Hgt. intros H. injection H as _ <-. simpl.
        by eapply flt_number_l.
      * rewrite (body_skip _ _ _ _ _ _ _ _ v) in H by done.
        by injection H as _ <-.
    + by rewrite body_unbound in H.
Qed.

Lemma loop_min_number es l w w' l' :
  loop es l w = (w', Ok l') ->
  is_nan (min_valid_loss l) = false -> is_nan (min_valid_loss l') = false.
Proof.
  revert l w. induction es as [|k es IH]; intros l w H Hnum.
  - by injection H as _ <-.
  - rewrite loop_cons in H. destruct (body l k w) as [w1 [l1|e]] eqn:Hb; [|done].
    eapply IH; [exact H|]. by eapply body_min_number.
Qed.

Lemma loop_settles k w0 w l :
  k <> 0%nat -> loop (seq 0 k) init_locals w0 = (w, Ok l) ->
  exists v, valid_loss l = Some v /\ fgt (min_valid_loss l) v = false.
Proof.
  intros Hk H. destruct k as [|k]; [done|].
  rewrite seq_S, loop_app in H. change (0 + k)%nat with k in H.
  destruct (loop (seq 0 k) init_locals w0) as [w1 [l1|e]]; [|done].
  rewrite loop_cons in H.
  destruct (body l1 k w1) as [w2 [l2|e]] eqn:Hb; [|done].
  injection H as <- <-. eapply body_settles; eauto.
Qed.

(** C9. With at least one epoch and no patience, the guard is false in the
    first epoch, the comparison reads the unbound [valid_loss], and the call
    fails there: one tick, no pass, the model object and the files as they
    were. *)
Theorem no_patience_fails_on_unbound_valid_loss (epochs : Z) (w0 : World) :
  1 <= epochs -> patience <= 0 ->
  bool_decide (stopping_ct init_locals < patience) = false /\
  run epochs w0 = (with_log w0 [Tick 0], Raise (UnboundLocalError "valid_loss")).
Proof.
  intros He Hp. split; [apply bool_decide_eq_false_2; simpl; lia|].
  rewrite run_unfold, range_pos, loop_cons by done.
  by rewrite body_unbound.
Qed.

(** C8. Once [stopping_ct] has reached [patience] after [k] epochs, it
    never decreases: up to any later epoch [j] the run adds only ticks to
    the log (no training pass, no validation pass, no save), leaves the
    model object and the files alone, and counts one up per epoch.  After a
    first completed epoch the reason is that [valid_loss] is bound to a
    loss that [min_valid_loss > valid_loss] rejects: [min_valid_loss] is at
    most that loss whenever the loss is a number. *)
Theorem spent_budget_stays_spent (w0 : World) (k j : nat) (w_k : World) (l_k : Locals) :
  (k <= j)%nat ->
  loop (seq 0 k) init_locals w0 = (w_k, Ok l_k) ->
  patience <= stopping_ct l_k ->
  (k <> 0%nat ->
   exists v, valid_loss l_k = Some v /\ fgt (min_valid_loss l_k) v = false /\
             (is_nan v = false -> fle (min_valid_loss l_k) v = true)) /\
  exists evs,
    (loop (seq 0 j) init_locals w0).1 = with_log w_k evs /\
    Forall (fun e => is_tick e = true) evs /\
    (forall l_j, (loop (seq 0 j) init_locals w0).2 = Ok l_j ->
       stopping_ct l_j = stopping_ct l_k + Z.of_nat (j - k) /\
       min_valid_loss l_j = min_valid_loss l_k) /\
    (k <> 0%nat ->
     evs = Tick <$> seq k (j - k) /\
     exists l_j, (loop (seq 0 j) init_locals w0).2 = Ok l_j).
Proof.
  intros Hkj Hk Hp. split.
  { intros Hk0. destruct (loop_settles k w0 w_k l_k Hk0 Hk) as (v & Hv & Hgt).
    exists v. split; [done|]. split; [done|]. intros Hnum.
    apply fle_of_not_fgt; [|done..].
    by eapply loop_min_number. }
  assert (Hsplit : seq 0 j = seq 0 k ++ seq k (j - k)).
  { rewrite <- seq_app. f_equal. lia. }
  rewrite Hsplit, loop_app, Hk.
  destruct (decide (k = 0%nat)) as [->|Hk0].
  - simpl in Hk. injection Hk as <- <-. rewrite Nat.sub_0_r.
    destruct j as [|j].
    + exists []. simpl. rewrite with_log_nil.
      split; [done|]. split; [done|]. split; [|done].
      intros l_j [= <-]. split; [simpl; lia|done].
    + exists [Tick 0%nat]. change (seq 0 (S j)) with (0%nat :: seq 1 j).
      rewrite loop_cons, body_unbound by done. simpl.
      split; [done|]. split; [by repeat constructor|]. split; done.
  - destruct (loop_settles k w0 w_k l_k Hk0 Hk) as (v & Hv & Hgt).
    rewrite (loop_frozen _ _ _ v) by done. simpl.
    exists (Tick <$> seq k (j - k)). split; [done|]. split.
    { apply Forall_fmap, Forall_forall. done. }
    split.
    + intros l_j [= <-]. rewrite count_up_iter_ct, count_up_iter_min, length_seq. done.
    + intros _. eauto.
Qed.

End LoopFacts.

(** ** Runs whose passes return *)

Section Minimum.

(** A new loss below the bound that no earlier loss is below becomes the
    minimum, at its own position. *)
Lemma first_minimum_snoc_new (vl : list pyfloat) (v bound : pyfloat) :
  flt v bound = true -> flt v PInf = true ->
  (forall u, u ∈ vl -> flt u bound = false) ->
  first_minimum (vl ++ [v]) (length vl).
Proof.
  intros Hvb Hv Hall. exists v. split.
  { rewrite lookup_app_r, Nat.sub_diag by lia. done. }
  split; [done|]. split.
  - intros u [Hu|Hu]%elem_of_app.
    + destruct (flt u v) eqn:E; [|done].
      rewrite <- (Hall u Hu). symmetry. eapply flt_trans; eauto.
    + apply list_elem_of_singleton in Hu as ->. apply flt_irrefl.
  - intros i u Hi Hu. rewrite lookup_app_l in Hu by done.
    destruct (fle u v) eqn:E; [|done].
    rewrite <- (Hall u (list_elem_of_lookup_2 _ _ _ Hu)). symmetry.
    eapply fle_flt_trans; eauto.
Qed.

(** A new loss that is not below the minimum leaves it where it is. *)
Lemma first_minimum_snoc_keep (vl : list pyfloat) (j : nat) (m v : pyfloat) :
  first_minimum vl j -> vl !! j = Some m -> flt v m = false ->
  first_minimum (vl ++ [v]) j.
Proof.
  intros (m' & Hj & Hm & Hall & Hfirst) Hjm Hv.
  assert (m' = m) as -> by congruence.
  pose proof (lookup_lt_Some _ _ _ Hj) as Hlt.
  exists m. split; [by rewrite lookup_app_l|]. split; [done|]. split.
  - intros u [Hu|Hu]%elem_of_app; [by apply Hall|].
    by apply list_elem_of_singleton in Hu as ->.
  - intros i u Hi Hu. rewrite lookup_app_l in Hu by lia. eauto.
Qed.

End Minimum.

Section ReturningRuns.
Context `{T : Torch}.
Variables (train_loader val_loader : list Batch).
Variables (patience : Z) (model_filename : string) (verbose : bool).

#[local] Arguments train_epoch : simpl never.
#[local] Arguments validate_epoch : simpl never.

Local Abbreviation body := (epoch_body train_loader val_loader patience model_filename verbose).
Local Abbreviation loop := (epoch_loop train_loader val_loader patience model_filename verbose).
Local Abbreviation run :=
  (train_and_validate_model train_loader val_loader patience model_filename verbose).
Local Abbreviation enet := (epoch_net train_loader val_loader).
Local Abbreviation passes := (epoch_passes train_loader val_loader).
Local Abbreviation inv := (loop_inv train_loader val_loader model_filename).

Lemma train_epoch_ok_samples n n1 tl ta :
  train_epoch n train_loader = (n1, Ok (tl, ta)) -> 0 < samples train_loader.
Proof.
  intros H. pose proof (train_epoch_outcome n train_loader) as Ho.
  rewrite H in Ho. simpl in Ho. unfold outcome in Ho.
  destruct (float_truediv _ _); simpl in Ho; [|discriminate].
  destruct (Z.eq_dec (samples train_loader) 0) as [E|E].
  - rewrite E, int_truediv_zero in Ho. discriminate.
  - pose proof (samples_nonneg train_loader). lia.
Qed.

Lemma validate_epoch_ok_samples n n1 v va :
  validate_epoch n val_loader = (n1, Ok (v, va)) -> 0 < samples val_loader.
Proof.
  intros H. pose proof (validate_epoch_outcome n val_loader) as Ho.
  rewrite H in Ho. simpl in Ho. unfold outcome in Ho.
  destruct (float_truediv _ _); simpl in Ho; [|discriminate].
  destruct (Z.eq_dec (samples val_loader) 0) as [E|E].
  - rewrite E, int_truediv_zero in Ho. discriminate.
  - pose proof (samples_nonneg val_loader). lia.
Qed.

Lemma enet_S n0 k : enet n0 (S k) = passes (enet n0 k).
Proof. reflexivity. Qed.

Section Returning.
Hypothesis patience_pos : 1 <= patience.
Hypothesis train_samples : 0 < samples train_loader.
Hypothesis val_samples : 0 < samples val_loader.

Lemma passes_return n :
  exists n1 tl ta v va,
    train_epoch n train_loader = (n1, Ok (tl, ta)) /\
    validate_epoch n1 val_loader = (passes n, Ok (v, va)) /\
    epoch_valid_loss train_loader val_loader n = Ok v.
Proof.
  destruct (train_epoch_ok n train_loader train_samples) as (tl & ta & Ht).
  destruct (train_epoch n train_loader) as [n1 rt] eqn:Et. simpl in Ht. subst rt.
  destruct (validate_epoch_ok n1 val_loader val_samples) as (v & va & Hv).
  destruct (validate_epoch n1 val_loader) as [n2 rv] eqn:Ev. simpl in Hv. subst rv.
  exists n1, tl, ta, v, va. unfold epoch_passes, epoch_valid_loss.
  rewrite Et. cbn. rewrite Ev. done.
Qed.

Lemma inv_init w0 : inv w0 0%nat w0 init_locals.
Proof.
  exists []. rewrite app_nil_r. repeat split; try done.
  left. repeat split; try done. intros v Hv. by apply elem_of_nil in Hv.
Qed.

Lemma ticks_of_pass_events k tl ta v va :
  filter (fun e => is_tick e)
    ([Tick k; TrainPass; ValidPass] ++ verbose_lines verbose k tl ta v va)
  = [Tick k].
Proof. unfold verbose_lines. by destruct verbose. Qed.

Lemma no_save_in_pass_events k tl ta v va :
  Forall (fun e => is_save e = false)
    ([Tick k; TrainPass; ValidPass] ++ verbose_lines verbose k tl ta v va).
Proof. unfold verbose_lines. destruct verbose; by repeat constructor. Qed.

Lemma inv_step w0 k w l :
  inv w0 k w l -> exists w' l', body l k w = (w', Ok l') /\ inv w0 (S k) w' l'.
Proof.
  intros (evs & Hlog & Hticks & Hnet & Hgen & Hlast & Hk0 & Hkn & Hrej & Hbest).
  assert (Hseq : Tick <$> seq 0 (S k) = (Tick <$> seq 0 k) ++ [Tick k]).
  { by rewrite seq_S, fmap_app. }
  destruct (Z.lt_ge_cases (stopping_ct l) patience) as [Hp|Hp].
  - destruct (passes_return (net w)) as (n1 & tl & ta & v & va & Ht & Hv & Hvl).
    rewrite (body_pass _ _ _ _ _ _ _ _ _ _ _ _ _ _ Hp Ht Hv).
    set (evs1 := [Tick k; TrainPass; ValidPass] ++ verbose_lines verbose k tl ta v va).
    assert (Hgen' : forall i u, (total_loss_val l ++ [v]) !! i = Some u ->
              epoch_valid_loss train_loader val_loader (enet (net w0) i) = Ok u).
    { intros i u Hi. destruct (decide (i < length (total_loss_val l))%nat) as [Hlt|Hge].
      - rewrite lookup_app_l in Hi by done. by apply Hgen.
      - rewrite lookup_app_r in Hi by lia.
        destruct (i - length (total_loss_val l))%nat eqn:E; [|done].
        injection Hi as <-. replace i with (length (total_loss_val l)) by lia.
        by rewrite <- Hnet. }
    assert (Hnet' : passes (net w)
              = enet (net w0) (length (total_loss_val l ++ [v]))).
    { rewrite length_app, Nat.add_1_r, enet_S. by rewrite <- Hnet. }
    destruct (fgt (min_valid_loss l) v) eqn:Hgt.
    + eexists _, _. split; [reflexivity|].
      exists (evs ++ evs1 ++ save_lines model_filename (min_valid_loss l) v
                               (state_dict (passes (net w)))).
      split; [simpl; by rewrite Hlog, <- !app_assoc|].
      split. { rewrite !filter_app, Hticks, Hseq. subst evs1.
               rewrite ticks_of_pass_events. done. }
      split; [exact Hnet'|]. split; [exact Hgen'|].
      split; [simpl; by rewrite last_snoc|]. split; [done|].
      split; [simpl; by destruct (total_loss_val l)|].
      split; [simpl; intros u [= <-]; apply flt_irrefl|].
      right. exists (length (total_loss_val l)). simpl.
      assert (Hb : exists bound, flt v bound = true /\ flt v PInf = true /\
                   forall u, u ∈ total_loss_val l -> flt u bound = false).
      { destruct Hbest as [(Hmin & Hall & _)|(j & (m & Hj & Hm & Hall & _) & Hjm & _)].
        - exists PInf. rewrite Hmin in Hgt. done.
        - assert (m = min_valid_loss l) as -> by congruence.
          exists (min_valid_loss l). split; [done|]. split; [|done].
          eapply flt_trans; eauto. }
      destruct Hb as (bound & Hvb & Hvinf & Hall).
      split; [by apply (first_minimum_snoc_new _ _ bound)|].
      split; [by rewrite lookup_app_r, Nat.sub_diag by lia|].
      rewrite <- Hnet. split; [by rewrite lookup_insert_eq|].
      apply elem_of_app. right. do 3 apply list_elem_of_further.
      apply elem_of_app. right.
      unfold save_lines. do 2 apply list_elem_of_further. apply list_elem_of_here.
    + eexists _, _. split; [reflexivity|].
      exists (evs ++ evs1).
      split; [simpl; by rewrite Hlog, <- !app_assoc|].
      split. { rewrite !filter_app, Hticks, Hseq. subst evs1.
               by rewrite ticks_of_pass_events. }
      split; [exact Hnet'|]. split; [exact Hgen'|].
      split; [simpl; by rewrite last_snoc|]. split; [done|].
      split; [simpl; by destruct (total_loss_val l)|].
      split; [simpl; by intros u [= <-]|].
      destruct Hbest as [(Hmin & Hall & Hfs & Hns)|(j & Hfm & Hjm & Hfs & Hin)].
      * left. simpl. split; [done|]. split.
        { intros u [Hu|Hu]%elem_of_app; [by apply Hall|].
          apply list_elem_of_singleton in Hu as ->. by rewrite Hmin in Hgt. }
        split; [done|]. apply Forall_app. split; [done|].
        apply no_save_in_pass_events.
      * right. exists j. simpl.
        split; [by eapply first_minimum_snoc_keep|].
        split; [rewrite lookup_app_l; [done|by eapply lookup_lt_Some]|].
        split; [done|]. apply elem_of_app. by left.
  - assert (Hk : k <> 0%nat) by (intros ->; specialize (Hk0 eq_refl); lia).
    destruct (valid_loss l) as [v|] eqn:Hv.
    2: { symmetry in Hlast. apply last_None in Hlast. by apply Hkn in Hlast. }
    rewrite (body_skip _ _ _ _ _ _ _ _ v) by auto.
    eexists _, _. split; [reflexivity|].
    exists (evs ++ [Tick k]).
    split; [simpl; by rewrite Hlog, <- !app_assoc|].
    split; [by rewrite filter_app, Hticks, Hseq|].
    split; [done|]. split; [done|]. split; [simpl; by rewrite Hv|].
    split; [done|]. split; [by intros _; apply Hkn|].
    split; [simpl; rewrite Hv; auto|].
    destruct Hbest as [(Hmin & Hall & Hfs & Hns)|(j & Hfm & Hjm & Hfs & Hin)].
    + left. simpl. repeat split; try done. apply Forall_app. split; [done|].
      by repeat constructor.
    + right. exists j. simpl. repeat split; try done. apply elem_of_app. by left.
Qed.

Lemma inv_run w0 k :
  exists w l, loop (seq 0 k) init_locals w0 = (w, Ok l) /\ inv w0 k w l.
Proof.
  induction k as [|k (w & l & Hrun & Hinv)].
  - exists w0, init_locals. split; [done|]. apply inv_init.
  - destruct (inv_step _ _ _ _ Hinv) as (w' & l' & Hb & Hinv').
    exists w', l'. split; [|done].
    rewrite seq_S, loop_app, Hrun. change (0 + k)%nat with k.
    by rewrite loop_cons, Hb.
Qed.

End Returning.

Lemma run_returning epochs w0 :
  1 <= patience -> 0 < samples train_loader -> 0 < samples val_loader ->
  exists w l,
    loop (range epochs) init_locals w0 = (w, Ok l) /\
    inv w0 (Z.to_nat epochs) w l /\
    run epochs w0
    = match fs w !! model_filename with
      | Some sd =>
          ({| net := load_state_dict (net w) sd; fs := fs w;
              log := log w ++ [Loaded model_filename] |},
           Ok (total_loss_train l, total_loss_val l, total_acc_train l, total_acc_val l))
      | None => (w, Raise (FileNotFoundError model_filename))
      end.
Proof.
  intros Hp Ht Hv.
  destruct (inv_run Hp Ht Hv w0 (Z.to_nat epochs)) as (w & l & Hrun & Hinv).
  exists w, l. split; [exact Hrun|]. split; [exact Hinv|].
  rewrite run_unfold. unfold range. by rewrite Hrun.
Qed.

(** C2. With at least one epoch, some patience and loaders that yield
    samples, the run ticks once per epoch of [range(epochs)], in order,
    whatever the counter does; an epoch entered with the budget spent still
    takes place and only skips the two passes, while an epoch entered with
    budget left calls both. *)
Theorem epoch_loop_runs_every_epoch (epochs : Z) (w0 : World) :
  1 <= epochs -> 1 <= patience ->
  0 < samples train_loader -> 0 < samples val_loader ->
  (exists evs,
     log (run epochs w0).1 = log w0 ++ evs /\
     filter (fun e => is_tick e) evs = Tick <$> range epochs /\
     length (filter (fun e => is_tick e) evs) = Z.to_nat epochs) /\
  (forall k w_k l_k,
     (k < Z.to_nat epochs)%nat ->
     loop (seq 0 k) init_locals w0 = (w_k, Ok l_k) ->
     if bool_decide (stopping_ct l_k < patience) then
       exists w' l' evs,
         loop (seq 0 (S k)) init_locals w0 = (w', Ok l') /\
         log w' = log w_k ++ [Tick k; TrainPass; ValidPass] ++ evs
     else
       loop (seq 0 (S k)) init_locals w0 = (with_log w_k [Tick k], Ok (count_up l_k))).
Proof.
  intros He Hp Ht Hv. split.
  - destruct (run_returning epochs w0 Hp Ht Hv) as (w & l & _ & Hinv & ->).
    destruct Hinv as (evs & Hlog & Hticks & _).
    destruct (fs w !! model_filename).
    + exists (evs ++ [Loaded model_filename]). simpl.
      rewrite Hlog, <- app_assoc, filter_app, Hticks. simpl.
      rewrite app_nil_r. split; [done|]. split; [done|].
      by rewrite length_fmap, length_seq.
    + exists evs. simpl. rewrite Hticks. split; [done|]. split; [done|].
      by rewrite length_fmap, length_seq.
  - intros k w_k l_k Hk Hrun.
    destruct (inv_run Hp Ht Hv w0 k) as (w & l & Hrun' & Hinv).
    rewrite Hrun in Hrun'. injection Hrun' as <- <-.
    rewrite seq_S, loop_app, Hrun. change (0 + k)%nat with k. rewrite loop_cons.
    case_bool_decide as Hct.
    + destruct (passes_return Ht Hv (net w_k)) as (n1 & tl & ta & v & va & Htr & Hva & _).
      rewrite (body_pass _ _ _ _ _ _ _ _ _ _ _ _ _ _ Hct Htr Hva).
      destruct (fgt (min_valid_loss l_k) v); eexists _, _, _; (split; [reflexivity|]);
        simpl; reflexivity.
    + destruct (inv_step Hp Ht Hv _ _ _ _ Hinv) as (w' & l' & Hb & _).
      destruct Hinv as (evs & _ & _ & _ & _ & Hlast & Hk0 & Hkn & Hrej & _).
      destruct (valid_loss l_k) as [v|] eqn:Hvl.
      * by rewrite (body_skip _ _ _ _ _ _ _ _ v) by (auto || lia).
      * rewrite body_unbound in Hb by (auto || lia). discriminate.
Qed.


(** The decision of lines 107-114 once [valid_loss] is bound: a save, the
    new minimum and a reset exactly when the loss is strictly below the
    running minimum; otherwise one more on the counter and nothing else. *)
Lemma checkpoint_decision l w v :
  valid_loss l = Some v ->
  checkpoint model_filename l w
  = if flt v (min_valid_loss l) then
      ({| net := net w;
          fs := <[model_filename := state_dict (net w)]> (fs w);
          log := log w ++ save_lines model_filename (min_valid_loss l) v
                            (state_dict (net w)) |},
       Ok (save_best l v))
    else (w, Ok (count_up l)).
Proof.
  intros Hv. unfold checkpoint, read_local, fgt.
  unfold mbind, M_bind, mret, M_ret, print, emit, torch_save; cbn.
  rewrite Hv. destruct (flt v (min_valid_loss l)); [|done].
  cbn. unfold save_lines. by rewrite <- !app_assoc.
Qed.

(** C1 (amended). With at least one epoch, some patience and loaders that
    yield samples, the loop returns, and every observed validation loss is
    that of validating the weights of its epoch.  If some observed loss is
    strictly below [inf], the checkpoint file then holds the weights as
    they were at the first epoch whose loss is the minimum of the observed
    ones, and the terminal load puts them back into the model.  At every
    checkpoint decision a save, with the counter reset, happens exactly
    when the loss is strictly below the running minimum; otherwise the
    counter advances by one. *)
Theorem checkpoint_holds_first_minimum (epochs : Z) (w0 : World) :
  1 <= epochs -> 1 <= patience ->
  0 < samples train_loader -> 0 < samples val_loader ->
  (exists w1 l,
     loop (range epochs) init_locals w0 = (w1, Ok l) /\
     (forall i v, total_loss_val l !! i = Some v ->
        epoch_valid_loss train_loader val_loader (enet (net w0) i) = Ok v) /\
     ((exists v, v ∈ total_loss_val l /\ flt v PInf = true) ->
      exists j,
        first_minimum (total_loss_val l) j /\
        fs w1 !! model_filename = Some (state_dict (enet (net w0) (S j))) /\
        run epochs w0
        = ({| net := load_state_dict (net w1) (state_dict (enet (net w0) (S j)));
              fs := fs w1;
              log := log w1 ++ [Loaded model_filename] |},
           Ok (total_loss_train l, total_loss_val l, total_acc_train l, total_acc_val l)) /\
        checkpoint_of_minimum train_loader val_loader patience model_filename verbose
          epochs w0)) /\
  (forall l w v,
     valid_loss l = Some v ->
     checkpoint model_filename l w
     = if flt v (min_valid_loss l) then
         ({| net := net w;
             fs := <[model_filename := state_dict (net w)]> (fs w);
             log := log w ++ save_lines model_filename (min_valid_loss l) v
                               (state_dict (net w)) |},
          Ok (save_best l v))
       else (w, Ok (count_up l))).
Proof.
  intros He Hp Ht Hv. split; [|apply checkpoint_decision].
  destruct (run_returning epochs w0 Hp Ht Hv) as (w1 & l & Hloop & Hinv & Hrun).
  exists w1, l. split; [exact Hloop|].
  destruct Hinv as (evs & _ & _ & _ & Hgen & _ & _ & _ & _ & Hbest).
  split; [exact Hgen|]. intros (v & Hin & Hlt).
  destruct Hbest as [(_ & Hall & _)|(j & Hfm & Hjm & Hfs & _)].
  { rewrite (Hall v Hin) in Hlt. discriminate. }
  exists j. rewrite Hfs in Hrun. split; [exact Hfm|]. split; [exact Hfs|].
  split; [exact Hrun|].
  destruct Hfm as (m & Hj & _ & Hmin & _).
  exists l, j, m. rewrite Hloop, Hrun. simpl. done.
Qed.

(** C10 (amended). With at least one epoch and some patience, if the
    passes of the first epoch return and its validation loss is strictly
    below [inf], then the first epoch saves the weights it validated to
    [model_filename], the call returns, and its terminal load reads weights
    that were saved during the call. *)
Theorem first_epoch_saves_when_loss_below_inf (epochs : Z) (w0 : World)
    (n1 n2 : Net) (tl ta v va : pyfloat) :
  1 <= epochs -> 1 <= patience ->
  train_epoch (net w0) train_loader = (n1, Ok (tl, ta)) ->
  validate_epoch n1 val_loader = (n2, Ok (v, va)) ->
  flt v PInf = true ->
  loop (seq 0 1) init_locals w0
  = ({| net := n2;
        fs := <[model_filename := state_dict n2]> (fs w0);
        log := log w0
               ++ ([Tick 0; TrainPass; ValidPass] ++ verbose_lines verbose 0 tl ta v va)
               ++ save_lines model_filename PInf v (state_dict n2) |},
     Ok (save_best (record_passes init_locals tl ta v va) v)) /\
  (exists w' out evs best,
     run epochs w0 = (w', Ok out) /\
     log w' = log w0 ++ evs ++ [Loaded model_filename] /\
     Saved model_filename best ∈ evs /\
     fs w' !! model_filename = Some best /\
     exists n, net w' = load_state_dict n best) /\
  saves_checkpoint train_loader val_loader patience model_filename verbose epochs w0.
Proof.
  intros He Hp Htr Hva Hlt.
  assert (Hfirst : epoch_valid_loss train_loader val_loader (net w0) = Ok v).
  { unfold epoch_valid_loss. rewrite Htr. cbn. by rewrite Hva. }
  assert (Hrun : exists w' out evs best,
     run epochs w0 = (w', Ok out) /\
     log w' = log w0 ++ evs ++ [Loaded model_filename] /\
     Saved model_filename best ∈ evs /\
     fs w' !! model_filename = Some best /\
     exists n, net w' = load_state_dict n best).
  { pose proof (train_epoch_ok_samples _ _ _ _ Htr) as Ht.
    pose proof (validate_epoch_ok_samples _ _ _ _ Hva) as Hv.
    destruct (run_returning epochs w0 Hp Ht Hv) as (w1 & l & Hloop & Hinv & Hrun).
    destruct Hinv as (evs & Hlog & _ & _ & Hgen & _ & _ & Hkn & _ & Hbest).
    destruct Hbest as [(_ & Hall & _)|(j & _ & _ & Hfs & Hin)].
    { exfalso. destruct (total_loss_val l) as [|u vl] eqn:E.
      - apply Hkn; [lia|done].
      - specialize (Hgen 0%nat u eq_refl). simpl in Hgen.
        assert (u = v) as -> by congruence.
        rewrite (Hall v) in Hlt; [discriminate|]. apply list_elem_of_here. }
    rewrite Hfs in Hrun. eexists _, _, evs, _. split; [exact Hrun|]. simpl.
    split; [by rewrite Hlog, <- app_assoc|]. split; [exact Hin|]. split; [exact Hfs|].
    eauto. }
  split; [|split; [exact Hrun|]].
  - change (seq 0 1) with [0%nat]. rewrite loop_cons.
    assert (Hct : stopping_ct init_locals < patience) by (simpl; lia).
    rewrite (body_pass _ _ _ _ _ _ _ _ _ _ _ _ _ _ Hct Htr Hva).
    simpl. unfold fgt. rewrite Hlt. by rewrite <- ?app_assoc.
  - destruct Hrun as (w' & out & evs & best & Hr & Hlog & Hin & _).
    exists (evs ++ [Loaded model_filename]), best. rewrite Hr. simpl.
    split; [exact Hlog|]. apply elem_of_app. by left.
Qed.

End ReturningRuns.

(** ** Model construction *)

Module InitFacts.
Import Init.
Section InitFacts.
Variable Tensor : Type.
Variable backbone_tensors : arch -> bool -> list Tensor.
Variable head_tensors : arch -> bool -> Tensor * Tensor.
Variable head_shape : arch -> nat * nat.
Variable linear_init : nat -> nat -> Tensor * Tensor.

Local Abbreviation initialise :=
  (initialise_model Tensor backbone_tensors head_tensors head_shape linear_init).
Local Abbreviation tv_model := (torchvision_model Tensor backbone_tensors head_tensors head_shape).
Local Abbreviation Linear_ := (nn_Linear Tensor linear_init).

Lemma nn_Linear_trainable i o :
  out_features _ (Linear_ i o) = o /\
  in_features _ (Linear_ i o) = i /\
  requires_grad _ (weight _ (Linear_ i o)) = true /\
  requires_grad _ (bias _ (Linear_ i o)) = true.
Proof. done. Qed.

Lemma torchvision_model_trainable a p :
  Forall (fun q => requires_grad _ q = true) (parameters _ (tv_model a p)).
Proof.
  unfold parameters. apply Forall_app. split.
  - simpl. apply Forall_fmap, Forall_forall. done.
  - by repeat constructor.
Qed.

(** Lines 127-130: with the flag, every parameter of the model is frozen;
    without it, the model is left as it is. *)
Lemma set_parameter_requires_grad_spec m :
  Forall (fun q => requires_grad _ q = false)
         (parameters _ (set_parameter_requires_grad Tensor m true)) /\
  set_parameter_requires_grad Tensor m false = m.
Proof.
  split; [|done]. unfold parameters. apply Forall_app. split.
  - simpl. apply Forall_fmap, Forall_forall. done.
  - by repeat constructor.
Qed.

Lemma initialise_recognised name num_classes feature_extract use_pretrained :
  name = "resnet_pret" \/ name = "densenet_pret" ->
  exists a,
    initialise name num_classes feature_extract use_pretrained
    = ([Constructed a use_pretrained],
       Ok (set_head _ (set_parameter_requires_grad _ (tv_model a use_pretrained)
                         feature_extract)
             (Linear_ (head_shape a).1 num_classes))).
Proof.
  intros [-> | ->]; [exists ResNet50|exists DenseNet121]; unfold initialise_model; simpl;
    by destruct feature_extract.
Qed.

(** C5. A name other than the two recognised ones prints the message and
    exits, with no model constructed; each of the two recognised names
    constructs its architecture and returns a model. *)
Theorem unrecognised_name_exits (name : string) (num_classes : nat)
    (feature_extract use_pretrained : bool) :
  (name <> "resnet_pret" -> name <> "densenet_pret" ->
   initialise name num_classes feature_extract use_pretrained
   = ([Printed (Text invalid_name)], Raise SystemExit)) /\
  (name = "resnet_pret" \/ name = "densenet_pret" ->
   exists a m,
     initialise name num_classes feature_extract use_pretrained
     = ([Constructed a use_pretrained], Ok m)).
Proof.
  split.
  - intros H1 H2. unfold initialise_model.
    apply String.eqb_neq in H1, H2. by rewrite H1, H2.
  - intros H.
    destruct (initialise_recognised name num_classes feature_extract use_pretrained H)
      as (a & ->). eauto.
Qed.

(** C6. For a recognised name and any class count: when feature
    extracting, the model returned has every backbone parameter frozen and,
    as its classification layer, a new linear layer from the old layer's
    input width to [num_classes], trainable; when not, every parameter of
    the model returned is trainable. *)
Theorem feature_extract_freezes_all_but_new_head (name : string) (num_classes : nat)
    (use_pretrained : bool) :
  name = "resnet_pret" \/ name = "densenet_pret" ->
  (exists a m,
     initialise name num_classes true use_pretrained
     = ([Constructed a use_pretrained], Ok m) /\
     Forall (fun q => requires_grad _ q = false) (backbone _ m) /\
     length (backbone _ m) = length (backbone_tensors a use_pretrained) /\
     head _ m = Linear_ (head_shape a).1 num_classes /\
     out_features _ (head _ m) = num_classes /\
     requires_grad _ (weight _ (head _ m)) = true /\
     requires_grad _ (bias _ (head _ m)) = true) /\
  (exists a m,
     initialise name num_classes false use_pretrained
     = ([Constructed a use_pretrained], Ok m) /\
     Forall (fun q => requires_grad _ q = true) (parameters _ m) /\
     head _ m = Linear_ (head_shape a).1 num_classes /\
     out_features _ (head _ m) = num_classes).
Proof.
  intros H. split.
  - destruct (initialise_recognised name num_classes true use_pretrained H) as (a & ->).
    eexists a, _. split; [reflexivity|]. simpl.
    split; [apply Forall_fmap, Forall_forall; done|].
    split; [by rewrite !length_fmap|]. done.
  - destruct (initialise_recognised name num_classes false use_pretrained H) as (a & ->).
    eexists a, _. split; [reflexivity|]. simpl. split; [|done].
    unfold parameters. simpl. apply Forall_app. split.
    + apply Forall_fmap, Forall_forall. done.
    + by repeat constructor.
Qed.

End InitFacts.
End InitFacts.

(** ** Reporting *)

Module ReportFacts.
Import Report.
Section ReportFacts.
Context `{T : Torch}.
Variables (Matrix Frame : Type).
Variable confusion_matrix : list nat -> list nat -> Matrix.
Variable row_normalised : Matrix -> Matrix.
Variable DataFrame : Matrix -> list string -> list string -> Frame.
Variable classification_report : list nat -> list nat -> list string -> string.

Local Abbreviation report :=
  (conf_report Matrix Frame confusion_matrix row_normalised DataFrame classification_report).

Lemma collect_batch_spec st b :
  y_pred (collect_batch st b)
  = y_pred st ++ predicted (outputs (call (model_cpu st) (data b)).2 (data b)) /\
  y_true (collect_batch st b) = y_true st ++ labels b.
Proof. unfold collect_batch. by destruct (call _ _). Qed.

Lemma foldl_collect st loader :
  len (y_pred (foldl collect_batch st loader)) = len (y_pred st) + samples loader /\
  y_true (foldl collect_batch st loader) = y_true st ++ mjoin (labels <$> loader).
Proof.
  revert st. induction loader as [|b rest IH]; intros st.
  - simpl. rewrite app_nil_r. split; [lia|done].
  - rewrite samples_cons. simpl. destruct (IH (collect_batch st b)) as [-> ->].
    destruct (collect_batch_spec st b) as [-> ->]. split.
    + unfold len, predicted, outputs, data at 2.
      rewrite length_app, !length_fmap, length_seq. lia.
    + by rewrite <- app_assoc.
Qed.

Lemma len_mjoin_labels (loader : list Batch) :
  len (mjoin (labels <$> loader)) = samples loader.
Proof.
  induction loader as [|b rest IH]; [done|].
  rewrite samples_cons, <- IH, fmap_cons.
  change (mjoin (labels b :: (labels <$> rest)))
    with (labels b ++ mjoin (labels <$> rest)).
  unfold len. rewrite length_app. unfold labels at 1. rewrite length_fmap. lia.
Qed.

Lemma foldl_collect_predictions st (loader : list Batch) :
  y_pred (foldl collect_batch st loader)
  = y_pred st ++ mjoin (batch_predictions (model_cpu st) loader) /\
  model_cpu (foldl collect_batch st loader)
  = foldl (fun n b => (call n (data b)).1) (model_cpu st) loader.
Proof.
  revert st. induction loader as [|b rest IH]; intros st.
  - simpl. by rewrite app_nil_r.
  - simpl. destruct (IH (collect_batch st b)) as [-> ->].
    unfold collect_batch, predicted. destruct (call (model_cpu st) (data b)) as [n1 rows].
    simpl. by rewrite <- app_assoc.
Qed.

Lemma batch_predictions_shape net (loader : list Batch) :
  Forall2 (fun ps b => length ps = length (labels b)) (batch_predictions net loader) loader.
Proof.
  revert net. induction loader as [|b rest IH]; intros net; simpl; constructor; [|apply IH].
  unfold predicted, outputs, data, labels. by rewrite !length_fmap, length_seq.
Qed.

(** C7 (amended). [conf_report] gathers one prediction and one label per
    sample of the loader: the labels of the batches in order, and beside
    each the class the model predicts for that sample.  When exactly seven
    classes occur among them, the confusion matrix and the report are
    computed from these two sequences, the report over the seven class
    names, both heatmaps are drawn, the figure is saved under a name made
    from the model type and the report is printed.  When the classes that
    occur are not seven, building the data frame raises [ValueError], and
    nothing is drawn, saved or printed. *)
Theorem conf_report_gathers_one_per_sample (model_fitted : Net) (loader : list Batch)
    (model_type : string) :
  let st := collect model_fitted loader in
  let cf_matrix := confusion_matrix (y_true st) (y_pred st) in
  let ending := (report model_fitted loader model_type).2 in
  length (y_pred st) = length (y_true st) /\
  len (y_true st) = samples loader /\
  y_true st = mjoin (labels <$> loader) /\
  y_pred st = mjoin (batch_predictions model_fitted loader) /\
  length classes = 7%nat /\
  (classes_seen (y_true st) (y_pred st) = 7%nat ->
   ending
   = ([ Figure _ _ 24 10;
        Subplot _ _ 1 2 1;
        HeatmapFrame _ _ (DataFrame (row_normalised cf_matrix) classes classes) ".3f"
          classes classes;
        Title _ _ "Normalized Confusion Matrix";
        XLabel _ _ "Predicted labels";
        YLabel _ _ "True labels";
        Subplot _ _ 1 2 2;
        HeatmapMatrix _ _ cf_matrix "g" classes classes;
        Title _ _ "Raw Confusion Matrix";
        XLabel _ _ "Predicted labels";
        YLabel _ _ "True labels";
        Savefig _ _ ("Confusion_Matrix_" +:+ model_type +:+ ".png");
        Show _ _;
        Printed _ _ dashes;
        Printed _ _ ("Classification Report:" +:+ String "010"%char "");
        Printed _ _ (classification_report (y_true st) (y_pred st) classes);
        Printed _ _ dashes ],
      Ok tt)) /\
  (classes_seen (y_true st) (y_pred st) <> 7%nat -> ending = ([], Raise ValueError)).
Proof.
  intros st cf_matrix ending.
  destruct (foldl_collect {| model_cpu := model_fitted; y_pred := []; y_true := [] |} loader)
    as [Hp Ht].
  destruct (foldl_collect_predictions
              {| model_cpu := model_fitted; y_pred := []; y_true := [] |} loader)
    as [Hq _].
  fold (collect model_fitted loader) in Hp, Ht, Hq. fold st in Hp, Ht, Hq.
  simpl in Hp, Ht, Hq.
  assert (Hlen : len (y_true st) = samples loader).
  { rewrite Ht. apply len_mjoin_labels. }
  split; [unfold len in *; simpl in Hp; lia|]. split; [exact Hlen|]. split; [exact Ht|].
  split; [exact Hq|]. split; [done|].
  subst ending. unfold conf_report, pd_DataFrame. cbn [snd]. fold st. split.
  - intros Hseven. rewrite bool_decide_eq_true_2; [done|]. by rewrite Hseven.
  - intros Hother. rewrite bool_decide_eq_false_2; [done|]. intros [E _]. by apply Hother.
Qed.

End ReportFacts.
End ReportFacts.

(** ** The statements at the small instance *)

Module Examples.
Import Toy.

(** Passes over two batches of two and three samples, three of the five
    correctly classified: mean loss (3 + 1) / 2, accuracy 100 * 3 / 5. *)
Lemma epoch_passes_return_mean_loss_and_accuracy_witness :
  0 < samples mixed /\
  (@train_epoch torch 0%nat mixed).2 = Ok (Fin 2, Fin 60) /\
  (@validate_epoch torch 0%nat mixed).2 = Ok (Fin 2, Fin 60).
Proof.
  assert (H : 0 < samples mixed) by (vm_compute; reflexivity).
  split; [exact H|].
  destruct (epoch_passes_return_mean_loss_and_accuracy (T := torch) 0%nat mixed H)
    as (_ & _ & Ht & Hv & _).
  split; [rewrite Ht|rewrite Hv]; vm_compute; reflexivity.
Defined.

Lemma accuracy_within_0_100_witness :
  (@test_model torch 0%nat (loader dip)).2 = Ok (Fin 100) /\ percent (Fin 100).
Proof.
  assert (H : (@test_model torch 0%nat (loader dip)).2 = Ok (Fin 100))
    by (vm_compute; reflexivity).
  split; [exact H|].
  destruct (accuracy_within_0_100 (T := torch) 0%nat (loader dip)) as (_ & _ & Ht & _).
  exact (Ht _ H).
Defined.

(** Losses 3, 1, 2, 2 with patience 2: the checkpoint is that of the
    second epoch. *)
Lemma checkpoint_holds_first_minimum_witness :
  (1 <= 5 /\ 1 <= 2 /\ 0 < samples (loader dip) /\ 0 < samples (loader dip)) /\
  checkpoint_of_minimum (T := torch) (loader dip) (loader dip) 2 "best.pt" false 5 (world ∅) /\
  fs (run (loader dip) (loader dip) 2 5 ∅).1 !! "best.pt" = Some 2%nat.
Proof.
  assert (H1 : 1 <= 5) by lia. assert (H2 : 1 <= 2) by lia.
  assert (H3 : 0 < samples (loader dip)) by (vm_compute; reflexivity).
  split; [done|].
  destruct (checkpoint_holds_first_minimum (T := torch) (loader dip) (loader dip) 2
              "best.pt" false 5 (world ∅) H1 H2 H3 H3)
    as [(w1 & l & Hloop & _ & Hbest) _].
  vm_compute in Hloop. injection Hloop as <- <-.
  destruct Hbest as (j & _ & _ & _ & Hc).
  - exists (Fin 3). split; [apply list_elem_of_here|reflexivity].
  - split; [exact Hc|]. vm_compute. reflexivity.
Defined.

Lemma epoch_loop_runs_every_epoch_witness :
  (1 <= 5 /\ 1 <= 1 /\ 0 < samples (loader dip) /\ 0 < samples (loader dip)) /\
  (exists evs,
     log (run (loader dip) (loader dip) 1 5 ∅).1 = log (world ∅) ++ evs /\
     filter (fun e : @event torch => is_tick e) evs
     = [Tick 0; Tick 1; Tick 2; Tick 3; Tick 4]%nat) /\
  upto (loader dip) (loader dip) 1 4 ∅ = (with_log world3 [Tick 3%nat], Ok (count_up locals3)).
Proof.
  unfold upto, run.
  assert (H1 : 1 <= 5) by lia. assert (H2 : 1 <= 1) by lia.
  assert (H3 : 0 < samples (loader dip)) by (vm_compute; reflexivity).
  split; [exact (conj H1 (conj H2 (conj H3 H3)))|].
  destruct (epoch_loop_runs_every_epoch (T := torch) (loader dip) (loader dip) 1
              "best.pt" false 5 (world ∅) H1 H2 H3 H3)
    as [(evs & Hlog & Hticks & _) Hstep].
  split.
  - exists evs. split; [exact Hlog|]. rewrite Hticks. reflexivity.
  - assert (Hk : (3 < Z.to_nat 5)%nat) by (vm_compute; lia).
    assert (Hrun : @epoch_loop torch (loader dip) (loader dip) 1 "best.pt" false
                     (seq 0 3) init_locals (world ∅)
                   = (world3, Ok locals3)) by (vm_compute; reflexivity).
    exact (Hstep 3%nat world3 locals3 Hk Hrun).
Defined.

(** C2 as stated fails: patience 2 and three epochs, but a training loader
    that yields no sample.  The first training pass divides by zero, the
    exception leaves the loop in its first epoch, and the call does not
    return: one tick, not three. *)
Lemma loader_without_samples_ends_loop_in_first_epoch :
  1 <= 3 /\ 1 <= 2 /\
  run [] (loader dip) 2 3 ∅
  = (@Build_World torch 0%nat ∅ [Tick 0%nat; TrainPass], Raise ZeroDivisionError) /\
  filter (fun e : @event torch => is_tick e) (log (run [] (loader dip) 2 3 ∅).1)
  = [Tick 0%nat] /\
  ~ (exists evs : list (@event torch),
       log (run [] (loader dip) 2 3 ∅).1 = log (world ∅) ++ evs /\
       length (filter (fun e : @event torch => is_tick e) evs) = Z.to_nat 3).
Proof.
  assert (Hrun : run [] (loader dip) 2 3 ∅
                 = (@Build_World torch 0%nat ∅ [Tick 0%nat; TrainPass],
                    Raise ZeroDivisionError)) by (vm_compute; reflexivity).
  split; [lia|]. split; [lia|]. split; [exact Hrun|]. rewrite Hrun. split.
  - vm_compute. reflexivity.
  - intros (evs & Hlog & Hlen). cbn in Hlog. subst evs. vm_compute in Hlen. discriminate.
Qed.

(** With patience 1 the budget is spent after the third epoch; the fourth
    and fifth only tick. *)
Lemma spent_budget_stays_spent_witness :
  ((3 <= 5)%nat /\
   upto (loader dip) (loader dip) 1 3 ∅ = (world3, Ok locals3) /\
   1 <= stopping_ct locals3) /\
  (upto (loader dip) (loader dip) 1 5 ∅).1 = with_log world3 [Tick 3; Tick 4]%nat.
Proof.
  unfold upto.
  assert (Hkj : (3 <= 5)%nat) by lia.
  assert (Hrun : @epoch_loop torch (loader dip) (loader dip) 1 "best.pt" false
                   (seq 0 3) init_locals (world ∅)
                 = (world3, Ok locals3)) by (vm_compute; reflexivity).
  assert (Hct : 1 <= stopping_ct locals3) by (vm_compute; discriminate).
  split; [exact (conj Hkj (conj Hrun Hct))|].
  destruct (spent_budget_stays_spent (T := torch) (loader dip) (loader dip) 1 "best.pt"
              false (world ∅) 3 5 world3 locals3 Hkj Hrun Hct)
    as (_ & evs & Hw & _ & _ & Hevs).
  destruct Hevs as [-> _]; [discriminate|]. exact Hw.
Defined.

Lemma no_patience_fails_on_unbound_valid_loss_witness :
  (1 <= 3 /\ 0 <= 0) /\
  run (loader dip) (loader dip) 0 3 ∅
  = (with_log (world ∅) [Tick 0%nat], Raise (UnboundLocalError "valid_loss")).
Proof.
  assert (H1 : 1 <= 3) by lia. assert (H2 : 0 <= 0) by lia.
  split; [done|].
  exact (proj2 (no_patience_fails_on_unbound_valid_loss (T := torch) (loader dip)
                  (loader dip) 0 "best.pt" false 3 (world ∅) H1 H2)).
Defined.

Lemma first_epoch_saves_when_loss_below_inf_witness :
  (1 <= 5 /\ 1 <= 2 /\
   @train_epoch torch 0%nat (loader dip) = (1%nat, Ok (Fin 2, Fin 100)) /\
   @validate_epoch torch 1%nat (loader dip) = (1%nat, Ok (Fin 3, Fin 100)) /\
   flt (Fin 3) PInf = true) /\
  saves_checkpoint (T := torch) (loader dip) (loader dip) 2 "best.pt" false 5 (world ∅).
Proof.
  assert (H1 : 1 <= 5) by lia. assert (H2 : 1 <= 2) by lia.
  assert (H3 : @train_epoch torch 0%nat (loader dip) = (1%nat, Ok (Fin 2, Fin 100)))
    by (vm_compute; reflexivity).
  assert (H4 : @validate_epoch torch 1%nat (loader dip) = (1%nat, Ok (Fin 3, Fin 100)))
    by (vm_compute; reflexivity).
  assert (H5 : flt (Fin 3) PInf = true) by reflexivity.
  split; [done|].
  exact (proj2 (proj2 (first_epoch_saves_when_loss_below_inf (T := torch) (loader dip)
                         (loader dip) 2 "best.pt" false 5 (world ∅) _ _ _ _ _ _
                         H1 H2 H3 H4 H5))).
Defined.

(** C1 as stated fails: when every validation loss is [nan], nothing is
    saved, the file left by an earlier run stays, and the call returns
    with those weights loaded; they are the weights of no epoch of it. *)
Lemma nan_losses_keep_stale_checkpoint :
  1 <= 3 /\ 1 <= 2 /\
  (run (loader dip) (loader (constant NaN)) 2 3 stale).2
  = Ok ([Fin 2; Fin 3], [NaN; NaN], [Fin 100; Fin 100], [Fin 100; Fin 100]) /\
  fs (run (loader dip) (loader (constant NaN)) 2 3 stale).1 !! "best.pt" = Some 99%nat /\
  ~ checkpoint_of_minimum (T := torch) (loader dip) (loader (constant NaN)) 2 "best.pt"
      false 3 (world stale).
Proof.
  split; [lia|]. split; [lia|]. split; [vm_compute; reflexivity|].
  split; [vm_compute; reflexivity|].
  intros (l & j & m & Hl & Hj & _ & Hfs).
  vm_compute in Hl. injection Hl as <-.
  destruct j as [|[|j]]; [| |discriminate]; vm_compute in Hfs; discriminate.
Qed.

(** C10 as stated fails: the first validation loss can be [nan], and then
    no epoch saves; the terminal load reads the file of an earlier run, or
    fails when there is none. *)
Lemma nan_loss_never_saves :
  1 <= 3 /\ 1 <= 2 /\
  ~ saves_checkpoint (T := torch) (loader dip) (loader (constant NaN)) 2 "best.pt"
      false 3 (world stale) /\
  net (run (loader dip) (loader (constant NaN)) 2 3 stale).1 = 99%nat /\
  (run (loader dip) (loader (constant NaN)) 2 3 ∅).2
  = Raise (FileNotFoundError "best.pt").
Proof.
  split; [lia|]. split; [lia|]. split; [|split; vm_compute; reflexivity].
  intros (evs & sd & Hlog & Hin).
  vm_compute in Hlog. subst evs.
  repeat (apply elem_of_cons in Hin as [Hin|Hin]; [discriminate|]).
  by apply elem_of_nil in Hin.
Qed.

Lemma unrecognised_name_exits_witness :
  "vgg_pret" <> "resnet_pret" /\ "vgg_pret" <> "densenet_pret" /\
  initialise "vgg_pret" 7 true true
  = ([Init.Printed (Text Init.invalid_name)], Raise SystemExit) /\
  exists a m, initialise "resnet_pret" 7 true true = ([Init.Constructed a true], Ok m).
Proof.
  assert (H1 : "vgg_pret" <> "resnet_pret") by discriminate.
  assert (H2 : "vgg_pret" <> "densenet_pret") by discriminate.
  split; [exact H1|]. split; [exact H2|]. split.
  - exact (proj1 (InitFacts.unrecognised_name_exits nat backbone_tensors head_tensors
                    head_shape linear_init "vgg_pret" 7 true true) H1 H2).
  - exact (proj2 (InitFacts.unrecognised_name_exits nat backbone_tensors head_tensors
                    head_shape linear_init "resnet_pret" 7 true true) (or_introl eq_refl)).
Defined.

Lemma feature_extract_freezes_all_but_new_head_witness :
  ("densenet_pret" = "resnet_pret" \/ "densenet_pret" = "densenet_pret") /\
  exists a m,
    initialise "densenet_pret" 7 true true = ([Init.Constructed a true], Ok m) /\
    Forall (fun q => Init.requires_grad _ q = false) (Init.backbone _ m) /\
    Init.out_features _ (Init.head _ m) = 7%nat.
Proof.
  assert (H : "densenet_pret" = "resnet_pret" \/ "densenet_pret" = "densenet_pret")
    by (right; reflexivity).
  split; [exact H|].
  destruct (InitFacts.feature_extract_freezes_all_but_new_head nat backbone_tensors
              head_tensors head_shape linear_init "densenet_pret" 7 true H)
    as [(a & m & Hm & Hfrozen & _ & _ & Hout & _) _].
  exists a, m. split; [exact Hm|]. split; [exact Hfrozen|exact Hout].
Defined.

(** One batch with a sample of each of the seven classes: the figure is
    saved and the report printed. *)
Lemma conf_report_gathers_one_per_sample_witness :
  Report.classes_seen (Report.y_true (@Report.collect torch 0%nat seven))
                      (Report.y_pred (@Report.collect torch 0%nat seven)) = 7%nat /\
  Report.y_true (@Report.collect torch 0%nat seven) = [0; 1; 2; 3; 4; 5; 6]%nat /\
  Report.y_pred (@Report.collect torch 0%nat seven) = [0; 0; 0; 0; 0; 0; 0]%nat /\
  exists evs,
    (report 0%nat seven "resnet50").2 = (evs, Ok tt) /\
    Report.Savefig _ _ "Confusion_Matrix_resnet50.png" ∈ evs /\
    Report.Printed _ _ "report" ∈ evs.
Proof.
  assert (H : Report.classes_seen (Report.y_true (@Report.collect torch 0%nat seven))
                (Report.y_pred (@Report.collect torch 0%nat seven)) = 7%nat)
    by (vm_compute; reflexivity).
  split; [exact H|].
  destruct (ReportFacts.conf_report_gathers_one_per_sample (T := torch)
              (list nat * list nat) (list nat * list nat * list string * list string)
              (fun ys_true ys_pred => (ys_true, ys_pred)) (fun m => m)
              (fun m index columns => (m, index, columns)) (fun _ _ _ => "report")
              0%nat seven "resnet50")
    as (_ & _ & Ht & Hp & _ & Hseven & _).
  split; [rewrite Ht; vm_compute; reflexivity|].
  split; [rewrite Hp; vm_compute; reflexivity|].
  unfold report. rewrite (Hseven H). eexists. split; [reflexivity|].
  split; [do 11 apply list_elem_of_further|do 15 apply list_elem_of_further];
    apply list_elem_of_here.
Defined.

(** C7 as stated fails: a loader of one sample of class 0, which the model
    predicts as class 0.  One class occurs, the confusion matrix is one by
    one, and the data frame with seven row and column names cannot be
    built: [ValueError], no figure saved and nothing printed. *)
Lemma single_class_loader_raises_before_saving :
  Report.y_true (@Report.collect torch 0%nat (loader dip)) = [0%nat] /\
  Report.y_pred (@Report.collect torch 0%nat (loader dip)) = [0%nat] /\
  Report.classes_seen [0%nat] [0%nat] = 1%nat /\
  (report 0%nat (loader dip) "resnet50").2 = ([], Raise ValueError).
Proof.
  repeat split; vm_compute; reflexivity.
Qed.

End Examples.

(** * Further properties *)

(** ** Passes on degenerate loaders and losses *)

Section MorePassFacts.
Context `{T : Torch}.

Lemma outcome_without_samples obs (loader : list Batch) :
  samples loader = 0 -> outcome obs loader = Raise ZeroDivisionError.
Proof.
  intros Hs. unfold outcome, float_truediv.
  destruct (len loader =? 0); [done|]. simpl.
  by rewrite Hs, int_truediv_zero.
Qed.

Lemma foldl_test_validate st st' (loader : list Batch) :
  model st = model st' -> correct st = correct st' -> total st = total st' ->
  model (foldl test_batch st loader) = model (foldl validate_batch st' loader) /\
  correct (foldl test_batch st loader) = correct (foldl validate_batch st' loader) /\
  total (foldl test_batch st loader) = total (foldl validate_batch st' loader).
Proof.
  revert st st'. induction loader as [|b rest IH]; intros st st' Hm Hc Ht; [done|].
  simpl. apply IH; unfold test_batch, validate_batch; rewrite Hm;
    destruct (call _ _); simpl; congruence.
Qed.

Lemma fadd_nan_l x : fadd NaN x = NaN.
Proof. by destruct x. Qed.

Lemma fadd_nan_r x : fadd x NaN = NaN.
Proof. by destruct x. Qed.

Lemma foldl_fadd_nan xs : foldl fadd NaN xs = NaN.
Proof.
  induction xs as [|x xs IH]; [done|].
  change (foldl fadd (fadd NaN x) xs = NaN). by rewrite fadd_nan_l.
Qed.

Lemma foldl_fadd_with_nan a xs : NaN ∈ xs -> foldl fadd a xs = NaN.
Proof.
  revert a. induction xs as [|x xs IH]; intros a Hin; [by apply elem_of_nil in Hin|].
  apply elem_of_cons in Hin as [<-|Hin].
  - change (foldl fadd (fadd a NaN) xs = NaN). by rewrite fadd_nan_r, foldl_fadd_nan.
  - change (foldl fadd (fadd a x) xs = NaN). by apply IH.
Qed.

Lemma outcome_with_nan obs (loader : list Batch) :
  0 < samples loader -> NaN ∈ obs.*1 ->
  exists acc, outcome obs loader = Ok (NaN, acc).
Proof.
  intros Hs Hin. destruct (outcome_ok obs loader Hs) as (avg & Havg & ->).
  unfold fsum in Havg. rewrite (foldl_fadd_with_nan _ _ Hin) in Havg.
  unfold float_truediv in Havg.
  destruct (len loader =? 0); [done|]. injection Havg as <-. eauto.
Qed.

(** X1. On a loader that yields no sample (no batch, or only empty ones)
    each of the three passes raises [ZeroDivisionError]. *)
Theorem passes_raise_without_samples (net : Net) (loader : list Batch) :
  samples loader = 0 ->
  (train_epoch net loader).2 = Raise ZeroDivisionError /\
  (validate_epoch net loader).2 = Raise ZeroDivisionError /\
  (test_model net loader).2 = Raise ZeroDivisionError.
Proof.
  intros Hs. split; [|split].
  - rewrite train_epoch_outcome. by apply outcome_without_samples.
  - rewrite validate_epoch_outcome. by apply outcome_without_samples.
  - unfold test_model; simpl. fold (start (eval_mode net)).
    rewrite (foldl_total _ test_batch_total). simpl. by rewrite Hs.
Qed.

(** X2. [test_model] and [validate_epoch] agree: on the same model and
    loader they leave the model object in the same state, and one returns
    an accuracy exactly when the other does, the same one. *)
Theorem test_model_agrees_with_validate_epoch (net : Net) (loader : list Batch) :
  (test_model net loader).1 = (validate_epoch net loader).1 /\
  (forall a, (test_model net loader).2 = Ok a <->
             exists l, (validate_epoch net loader).2 = Ok (l, a)).
Proof.
  destruct (foldl_test_validate (start (eval_mode net)) (start (eval_mode net)) loader
              eq_refl eq_refl eq_refl) as (Hm & Hc & Ht).
  split; [exact Hm|]. intros a.
  unfold test_model, validate_epoch; simpl. fold (start (eval_mode net)).
  rewrite Hc, Ht, (foldl_total _ validate_batch_total); simpl. split.
  - intros Ha. destruct (Z.eq_dec (samples loader) 0) as [E|E].
    { rewrite E, int_truediv_zero in Ha. discriminate. }
    pose proof (samples_nonneg loader).
    destruct (float_truediv_ok
                (loss_sum (foldl validate_batch (start (eval_mode net)) loader))
                (len loader)) as [avg ->].
    { apply samples_pos_len. lia. }
    simpl. rewrite Ha. simpl. eauto.
  - intros [l Hl]. destruct (float_truediv _ _); simpl in Hl; [|discriminate].
    destruct (int_truediv _ _); simpl in Hl; [|discriminate].
    by injection Hl as _ ->.
Qed.

(** X3. One [nan] among the batch losses of a pass makes the mean loss it
    returns [nan]. *)
Theorem nan_batch_loss_gives_nan_mean (net : Net) (loader : list Batch) :
  0 < samples loader ->
  (NaN ∈ (observe train_batch (start (train_mode net)) loader).*1 ->
   exists acc, (train_epoch net loader).2 = Ok (NaN, acc)) /\
  (NaN ∈ (observe validate_batch (start (eval_mode net)) loader).*1 ->
   exists acc, (validate_epoch net loader).2 = Ok (NaN, acc)).
Proof.
  intros Hs. split; intros Hin.
  - rewrite train_epoch_outcome. by apply outcome_with_nan.
  - rewrite validate_epoch_outcome. by apply outcome_with_nan.
Qed.

End MorePassFacts.

(** ** Every run, whatever its outcome *)

Section MoreRunFacts.
Context `{T : Torch}.
Variables (train_loader val_loader : list Batch).
Variables (patience : Z) (model_filename : string) (verbose : bool).

#[local] Arguments train_epoch : simpl never.
#[local] Arguments validate_epoch : simpl never.

Local Abbreviation body := (epoch_body train_loader val_loader patience model_filename verbose).
Local Abbreviation loop := (epoch_loop train_loader val_loader patience model_filename verbose).
Local Abbreviation run :=
  (train_and_validate_model train_loader val_loader patience model_filename verbose).
Local Abbreviation enet := (epoch_net train_loader val_loader).

(** An epoch entered with the budget spent and [valid_loss] bound. *)
Lemma body_spent l k w v :
  patience <= stopping_ct l -> valid_loss l = Some v ->
  body l k w
  = if fgt (min_valid_loss l) v then
      ({| net := net w;
          fs := <[model_filename := state_dict (net w)]> (fs w);
          log := log w ++ Tick k :: save_lines model_filename (min_valid_loss l) v
                                      (state_dict (net w)) |},
       Ok (save_best l v))
    else (with_log w [Tick k], Ok (count_up l)).
Proof.
  intros Hp Hv. destruct (fgt (min_valid_loss l) v) eqn:Hgt.
  - unfold epoch_body, guarded_passes, checkpoint.
    rewrite bool_decide_eq_false_2 by lia.
    unfold mbind, M_bind, mret, M_ret, emit, read_local, print, emit, torch_save; cbn.
    rewrite Hv, Hgt. cbn. unfold save_lines. by rewrite <- !app_assoc.
  - by apply (body_skip _ _ _ _ _ _ _ _ v).
Qed.

(** What one epoch can do to the world and the locals, whatever happens. *)
Lemma body_outcomes l k w w' r :
  body l k w = (w', r) ->
  exists evs,
    log w' = log w ++ Tick k :: evs /\
    Forall honest_decrease evs /\
    (fs w' = fs w \/ fs w' = <[model_filename := state_dict (net w')]> (fs w)) /\
    (forall l', r = Ok l' ->
       (same_lengths l -> same_lengths l') /\
       (length (total_loss_val l') <= S (length (total_loss_val l)))%nat).
Proof.
  intros H. destruct (Z.lt_ge_cases (stopping_ct l) patience) as [Hp|Hp].
  - destruct (train_epoch (net w) train_loader) as [n1 [[tl ta]|e]] eqn:Ht.
    + destruct (validate_epoch n1 val_loader) as [n2 [[v va]|e]] eqn:Hv.
      * rewrite (body_pass _ _ _ _ _ _ _ _ _ _ _ _ _ _ Hp Ht Hv) in H.
        assert (Hlen : forall l1, l1 = record_passes l tl ta v va ->
                  (same_lengths l -> same_lengths l1) /\
                  (length (total_loss_val l1) <= S (length (total_loss_val l)))%nat).
        { intros l1 ->. unfold same_lengths. simpl. rewrite !length_app. simpl. lia. }
        destruct (fgt (min_valid_loss l) v) eqn:Hgt; injection H as <- <-;
          eexists; (split; [simpl; reflexivity|]).
        -- split.
           { unfold verbose_lines, save_lines. unfold fgt in Hgt.
             destruct verbose; repeat constructor; exact Hgt. }
           split; [by right|]. intros l' [= <-]. exact (Hlen _ eq_refl).
        -- split.
           { unfold verbose_lines. destruct verbose; by repeat constructor. }
           split; [by left|]. intros l' [= <-]. exact (Hlen _ eq_refl).
      * rewrite (body_validate_raises _ _ _ _ _ _ _ _ _ _ _ _ _ Hp Ht Hv) in H.
        injection H as <- <-. eexists. split; [simpl; reflexivity|].
        split; [by repeat constructor|]. split; [by left|]. done.
    + rewrite (body_train_raises _ _ _ _ _ _ _ _ _ _ Hp Ht) in H.
      injection H as <- <-. eexists. split; [simpl; reflexivity|].
      split; [by repeat constructor|]. split; [by left|]. done.
  - destruct (valid_loss l) as [v|] eqn:Hv.
    + rewrite (body_spent _ _ _ _ Hp Hv) in H.
      destruct (fgt (min_valid_loss l) v) eqn:Hgt; injection H as <- <-;
        eexists; (split; [simpl; reflexivity|]).
      * split; [unfold save_lines, fgt in *; by repeat constructor|].
        split; [by right|]. intros l' [= <-]. unfold same_lengths. simpl. lia.
      * split; [done|]. split; [by left|].
        intros l' [= <-]. unfold same_lengths. simpl. lia.
    + rewrite body_unbound in H by done. injection H as <- <-.
      exists []. split; [done|]. split; [done|]. split; [by left|]. done.
Qed.

Lemma loop_outcomes es l w w' r :
  loop es l w = (w', r) ->
  exists evs,
    log w' = log w ++ evs /\
    Forall honest_decrease evs /\
    (forall p, p <> model_filename -> fs w' !! p = fs w !! p) /\
    (forall l', r = Ok l' ->
       (same_lengths l -> same_lengths l') /\
       (length (total_loss_val l') <= length (total_loss_val l) + length es)%nat).
Proof.
  revert l w. induction es as [|k es IH]; intros l w H.
  - injection H as <- <-. exists []. rewrite app_nil_r.
    split; [done|]. split; [done|]. split; [done|].
    intros l' [= <-]. split; [done|]. simpl. lia.
  - rewrite loop_cons in H. destruct (body l k w) as [w1 r1] eqn:Hb.
    destruct (body_outcomes _ _ _ _ _ Hb) as (evs1 & Hlog1 & Hd1 & Hfs1 & Hl1).
    assert (Hother : forall p, p <> model_filename -> fs w1 !! p = fs w !! p).
    { intros p Hp. destruct Hfs1 as [->| ->]; [done|]. by rewrite lookup_insert_ne. }
    destruct r1 as [l1|e].
    + destruct (IH _ _ H) as (evs & Hlog & Hd & Hfs & Hl).
      exists (Tick k :: evs1 ++ evs).
      split; [rewrite Hlog, Hlog1, <- app_assoc; done|].
      split; [constructor; [done|]; by apply Forall_app|].
      split; [intros p Hp; by rewrite Hfs, Hother|].
      intros l' ->. destruct (Hl l' eq_refl) as [Hs Hn].
      destruct (Hl1 l1 eq_refl) as [Hs1 Hn1]. split; [auto|]. simpl. lia.
    + injection H as <- <-. exists (Tick k :: evs1).
      split; [done|]. split; [by constructor|]. split; [done|]. done.
Qed.

Lemma run_outcomes epochs w0 :
  exists w1 r evs,
    loop (range epochs) init_locals w0 = (w1, r) /\
    log w1 = log w0 ++ evs /\
    Forall honest_decrease evs /\
    (forall p, p <> model_filename -> fs w1 !! p = fs w0 !! p) /\
    (forall l, r = Ok l ->
       same_lengths l /\ (length (total_loss_val l) <= Z.to_nat epochs)%nat) /\
    fs (run epochs w0).1 = fs w1 /\
    (log (run epochs w0).1 = log w1 \/
     log (run epochs w0).1 = log w1 ++ [Loaded model_filename]) /\
    (forall tl vl ta va, (run epochs w0).2 = Ok (tl, vl, ta, va) ->
       exists l, r = Ok l /\ tl = total_loss_train l /\ vl = total_loss_val l /\
                 ta = total_acc_train l /\ va = total_acc_val l).
Proof.
  destruct (loop (range epochs) init_locals w0) as [w1 r] eqn:Hloop.
  destruct (loop_outcomes _ _ _ _ _ Hloop) as (evs & Hlog & Hd & Hfs & Hl).
  exists w1, r, evs. split; [done|]. split; [done|]. split; [done|]. split; [done|].
  split.
  { intros l ->. destruct (Hl l eq_refl) as [Hs Hn]. split; [by apply Hs|].
    unfold range in Hn. rewrite length_seq in Hn. simpl in Hn. lia. }
  rewrite run_unfold, Hloop. destruct r as [l|e].
  2: { simpl. split; [done|]. split; [by left|]. done. }
  destruct (fs w1 !! model_filename); simpl.
  - split; [done|]. split; [by right|].
    intros tl vl ta va [= <- <- <- <-]. by exists l.
  - split; [done|]. split; [by left|]. done.
Qed.

(** X4. With no epoch to run ([epochs <= 0]) the function performs no pass
    and no save: it loads whatever checkpoint file is already there and
    returns four empty lists, or raises [FileNotFoundError] when there is
    none. *)
Theorem no_epochs_only_loads (epochs : Z) (w0 : World) :
  epochs <= 0 ->
  run epochs w0
  = match fs w0 !! model_filename with
    | Some sd =>
        ({| net := load_state_dict (net w0) sd; fs := fs w0;
            log := log w0 ++ [Loaded model_filename] |},
         Ok ([], [], [], []))
    | None => (w0, Raise (FileNotFoundError model_filename))
    end.
Proof.
  intros He. rewrite run_unfold. unfold range.
  replace (Z.to_nat epochs) with 0%nat by lia. done.
Qed.

(** X6. Whenever the function returns, its four metric lists are as long
    as one another, and no longer than [epochs]. *)
Theorem returned_lists_have_one_length (epochs : Z) (w0 : World)
    (tl vl ta va : list pyfloat) :
  (run epochs w0).2 = Ok (tl, vl, ta, va) ->
  length tl = length vl /\ length ta = length vl /\ length va = length vl /\
  (length vl <= Z.to_nat epochs)%nat.
Proof.
  intros H. destruct (run_outcomes epochs w0) as (w1 & r & evs & _ & _ & _ & _ & Hl & _ & _ & Hr).
  destruct (Hr _ _ _ _ H) as (l & -> & -> & -> & -> & ->).
  destruct (Hl l eq_refl) as [(H1 & H2 & H3) Hn]. done.
Qed.

(** X8. Whatever the outcome of the call, no file other than
    [model_filename] is written or removed. *)
Theorem other_files_untouched (epochs : Z) (w0 : World) (path : string) :
  path <> model_filename ->
  fs (run epochs w0).1 !! path = fs w0 !! path.
Proof.
  intros Hp.
  destruct (run_outcomes epochs w0) as (w1 & r & evs & _ & _ & _ & Hfs & _ & -> & _).
  by apply Hfs.
Qed.

End MoreRunFacts.

(** ** Early stopping *)

Section EarlyStopping.
Context `{T : Torch}.
Variables (train_loader val_loader : list Batch).
Variables (patience : Z) (model_filename : string) (verbose : bool).

#[local] Arguments train_epoch : simpl never.
#[local] Arguments validate_epoch : simpl never.

Local Abbreviation body := (epoch_body train_loader val_loader patience model_filename verbose).
Local Abbreviation loop := (epoch_loop train_loader val_loader patience model_filename verbose).
Local Abbreviation run :=
  (train_and_validate_model train_loader val_loader patience model_filename verbose).
Local Abbreviation enet := (epoch_net train_loader val_loader).
Local Abbreviation passes := (epoch_passes train_loader val_loader).
Local Abbreviation inv := (loop_inv train_loader val_loader model_filename).

Lemma train_epoch_raises_without_samples n :
  samples train_loader = 0 ->
  train_epoch n train_loader = ((train_epoch n train_loader).1, Raise ZeroDivisionError).
Proof.
  intros Hs. pose proof (train_epoch_outcome n train_loader) as Ho.
  rewrite outcome_without_samples in Ho by done.
  destruct (train_epoch n train_loader) as [n1 r]. simpl in *. by subst.
Qed.

Lemma validate_epoch_raises_without_samples n :
  samples val_loader = 0 ->
  validate_epoch n val_loader = ((validate_epoch n val_loader).1, Raise ZeroDivisionError).
Proof.
  intros Hs. pose proof (validate_epoch_outcome n val_loader) as Ho.
  rewrite outcome_without_samples in Ho by done.
  destruct (validate_epoch n val_loader) as [n1 r]. simpl in *. by subst.
Qed.

(** X5. With at least one epoch and some patience, a training loader
    without samples makes the call fail with [ZeroDivisionError] in the
    first training pass; a validation loader without samples makes it fail
    in the first validation pass, after the model has been trained for one
    epoch.  Either way nothing is saved and no file is read. *)
Theorem run_fails_on_loader_without_samples (epochs : Z) (w0 : World) :
  1 <= epochs -> 1 <= patience ->
  (samples train_loader = 0 ->
   run epochs w0
   = ({| net := (train_epoch (net w0) train_loader).1; fs := fs w0;
         log := log w0 ++ [Tick 0; TrainPass] |},
      Raise ZeroDivisionError)) /\
  (0 < samples train_loader -> samples val_loader = 0 ->
   run epochs w0
   = ({| net := passes (net w0); fs := fs w0;
         log := log w0 ++ [Tick 0; TrainPass; ValidPass] |},
      Raise ZeroDivisionError)).
Proof.
  intros He Hp.
  assert (Hct : stopping_ct init_locals < patience) by (simpl; lia).
  split.
  - intros Hs. rewrite run_unfold, range_pos, loop_cons by done.
    by rewrite (body_train_raises _ _ _ _ _ _ _ _ _ _ Hct
                  (train_epoch_raises_without_samples (net w0) Hs)).
  - intros Ht Hs. rewrite run_unfold, range_pos, loop_cons by done.
    destruct (train_epoch_ok (net w0) train_loader Ht) as (tl & ta & Htr).
    destruct (train_epoch (net w0) train_loader) as [n1 r] eqn:E. simpl in Htr. subst r.
    rewrite (body_validate_raises _ _ _ _ _ _ _ _ _ _ _ _ _ Hct E
               (validate_epoch_raises_without_samples n1 Hs)).
    unfold epoch_passes. by rewrite E.
Qed.

(** X9. An epoch whose validation pass meets a [nan] batch loss is no
    improvement, whatever the minimum so far: the epoch completes, saves
    nothing, leaves [min_valid_loss] as it is and counts one up. *)
Theorem nan_validation_epoch_does_not_save (l : Locals) (k : nat) (w : World) :
  stopping_ct l < patience ->
  0 < samples train_loader -> 0 < samples val_loader ->
  NaN ∈ (observe validate_batch
           (start (eval_mode (train_epoch (net w) train_loader).1)) val_loader).*1 ->
  exists w' l' evs,
    body l k w = (w', Ok l') /\
    fs w' = fs w /\
    log w' = log w ++ evs /\ Forall (fun e => is_save e = false) evs /\
    valid_loss l' = Some NaN /\
    min_valid_loss l' = min_valid_loss l /\
    stopping_ct l' = stopping_ct l + 1.
Proof.
  intros Hct Ht Hv Hnan.
  destruct (passes_return _ _ Ht Hv (net w)) as (n1 & tl & ta & v & va & Htr & Hva & _).
  rewrite Htr in Hnan. simpl in Hnan.
  assert (v = NaN) as ->.
  { destruct (outcome_with_nan _ _ Hv Hnan) as (acc & Ho).
    rewrite <- validate_epoch_outcome, Hva in Ho. simpl in Ho. congruence. }
  rewrite (body_pass _ _ _ _ _ _ _ _ _ _ _ _ _ _ Hct Htr Hva).
  replace (fgt (min_valid_loss l) NaN) with false by (by destruct (min_valid_loss l)).
  eexists _, _, _. split; [reflexivity|]. simpl. split; [done|]. split; [done|].
  split; [|done]. unfold verbose_lines. destruct verbose; by repeat constructor.
Qed.

Section Budget.
Hypothesis patience_pos : 1 <= patience.
Hypothesis train_samples : 0 < samples train_loader.
Hypothesis val_samples : 0 < samples val_loader.

Lemma budget_step w0 k w l :
  inv w0 k w l -> budget_spent patience k l ->
  exists w' l',
    body l k w = (w', Ok l') /\ inv w0 (S k) w' l' /\ budget_spent patience (S k) l'.
Proof.
  intros Hinv (base & H0 & Hk & Hlen & Hbest).
  destruct (inv_step _ _ _ _ verbose patience_pos train_samples val_samples _ _ _ _ Hinv)
    as (w' & l' & Hb & Hinv').
  exists w', l'. split; [exact Hb|]. split; [exact Hinv'|].
  destruct Hinv as (evs & _ & _ & _ & _ & Hlast & _ & _ & Hrej & _).
  destruct (Z.lt_ge_cases (stopping_ct l) patience) as [Hp|Hp].
  - destruct (passes_return _ _ train_samples val_samples (net w))
      as (n1 & tl & ta & v & va & Htr & Hva & _).
    rewrite (body_pass _ _ _ _ _ _ _ _ _ _ _ _ _ _ Hp Htr Hva) in Hb.
    destruct (fgt (min_valid_loss l) v) eqn:Hgt; injection Hb as _ <-.
    + exists (S (length (total_loss_val l))). simpl.
      split; [lia|]. split; [lia|].
      split; [rewrite length_app; simpl; lia|].
      right. exists (length (total_loss_val l)). split; [done|].
      split; [|by rewrite lookup_app_r, Nat.sub_diag by lia].
      destruct Hbest as [(_ & Hmin & Hall)|(j & _ & (m & Hj & Hm & Hall & _) & Hjm)].
      * rewrite Hmin in Hgt. by apply (first_minimum_snoc_new _ _ PInf).
      * assert (m = min_valid_loss l) as -> by congruence.
        apply (first_minimum_snoc_new _ _ (min_valid_loss l)); [done| |done].
        eapply flt_trans; eauto.
    + exists base. simpl.
      split; [lia|]. split; [lia|].
      split; [rewrite length_app; simpl; lia|].
      destruct Hbest as [(Hbase & Hmin & Hall)|(j & Hbase & Hfm & Hjm)].
      * left. split; [done|]. split; [done|].
        intros u [Hu|Hu]%elem_of_app; [by apply Hall|].
        apply list_elem_of_singleton in Hu as ->. by rewrite Hmin in Hgt.
      * right. exists j. split; [done|].
        split; [by eapply first_minimum_snoc_keep|].
        rewrite lookup_app_l; [done|by eapply lookup_lt_Some].
  - destruct (valid_loss l) as [v|] eqn:Hv.
    2: { rewrite body_unbound in Hb by done. discriminate. }
    rewrite (body_spent _ _ _ _ _ _ _ _ _ Hp Hv), (Hrej v eq_refl) in Hb.
    injection Hb as _ <-. exists base. simpl.
    split; [lia|]. split; [lia|]. split; [lia|]. exact Hbest.
Qed.

Lemma budget_run w0 k :
  exists w l,
    loop (seq 0 k) init_locals w0 = (w, Ok l) /\ inv w0 k w l /\ budget_spent patience k l.
Proof.
  induction k as [|k (w & l & Hrun & Hinv & Hbud)].
  - exists w0, init_locals. split; [done|]. split; [apply inv_init|].
    exists 0%nat. simpl. split; [lia|]. split; [lia|]. split; [lia|].
    left. split; [done|]. split; [done|]. intros v Hv. by apply elem_of_nil in Hv.
  - destruct (budget_step _ _ _ _ Hinv Hbud) as (w' & l' & Hb & Hinv' & Hbud').
    exists w', l'. split; [|done].
    rewrite seq_S, loop_app, Hrun. change (0 + k)%nat with k.
    by rewrite loop_cons, Hb.
Qed.

End Budget.

(** X7. Early stopping.  With some patience and loaders that yield
    samples, the epochs whose passes run are the first
    [min(epochs, b + patience)], where [b] is the position (counting from
    one) of the first epoch with the minimum validation loss, or zero when
    no loss was below [inf]: after the best epoch exactly [patience] more
    are tried, epochs permitting.  The model object has been through the
    passes of that many epochs when the loop ends. *)
Theorem passes_stop_patience_epochs_after_best (epochs : Z) (w0 : World) :
  1 <= patience -> 0 < samples train_loader -> 0 < samples val_loader ->
  exists w l (base : nat),
    loop (range epochs) init_locals w0 = (w, Ok l) /\
    ((base = 0%nat /\ forall v, v ∈ total_loss_val l -> flt v PInf = false) \/
     (exists j, base = S j /\ first_minimum (total_loss_val l) j)) /\
    Z.of_nat (length (total_loss_val l))
    = Z.min (Z.max epochs 0) (Z.of_nat base + patience) /\
    net w = enet (net w0) (length (total_loss_val l)).
Proof.
  intros Hp Ht Hv.
  destruct (budget_run Hp Ht Hv w0 (Z.to_nat epochs))
    as (w & l & Hrun & Hinv & base & H0 & Hk & Hlen & Hbest).
  exists w, l, base. split; [exact Hrun|]. split.
  { destruct Hbest as [(Hbase & _ & Hall)|(j & Hbase & Hfm & _)]; [by left|].
    right. by exists j. }
  split; [lia|].
  by destruct Hinv as (evs & _ & _ & Hnet & _).
Qed.

End EarlyStopping.

(** ** Model construction, further *)

Module MoreInitFacts.
Import Init.
Section MoreInitFacts.
Variable Tensor : Type.
Variable backbone_tensors : arch -> bool -> list Tensor.
Variable head_tensors : arch -> bool -> Tensor * Tensor.
Variable head_shape : arch -> nat * nat.
Variable linear_init : nat -> nat -> Tensor * Tensor.

Local Abbreviation initialise :=
  (initialise_model Tensor backbone_tensors head_tensors head_shape linear_init).
Local Abbreviation tv_model := (torchvision_model Tensor backbone_tensors head_tensors head_shape).
Local Abbreviation Linear_ := (nn_Linear Tensor linear_init).
Local Abbreviation trainable := (fun q : Param Tensor => requires_grad _ q = true).

Lemma values_of_frozen (ps : list (Param Tensor)) :
  value _ <$> (freeze _ <$> ps) = value _ <$> ps.
Proof. induction ps as [|p ps IH]; [done|]. by rewrite !fmap_cons, IH. Qed.

Lemma values_of_new (ts : list Tensor) : value _ <$> (nn_Parameter _ <$> ts) = ts.
Proof. induction ts as [|t ts IH]; [done|]. by rewrite !fmap_cons, IH. Qed.

Lemma no_trainable_among_frozen (ps : list (Param Tensor)) :
  filter trainable (freeze _ <$> ps) = [].
Proof.
  induction ps as [|p ps IH]; [done|]. rewrite fmap_cons.
  rewrite filter_cons_False; [exact IH|]. simpl. discriminate.
Qed.

Lemma freeze_twice (ps : list (Param Tensor)) :
  freeze _ <$> (freeze _ <$> ps) = freeze _ <$> ps.
Proof. induction ps as [|p ps IH]; [done|]. by rewrite !fmap_cons, IH. Qed.

(** X10. [set_parameter_requires_grad] touches flags only, and only to
    clear them: the parameter values, their number, the architecture and
    the shape of the classification layer stay as they were, and no
    parameter that was frozen becomes trainable, whichever way the switch
    is set.  Applying it twice is applying it once. *)
Theorem set_parameter_requires_grad_only_clears_flags (m : TVModel Tensor) (b : bool) :
  let m' := set_parameter_requires_grad _ m b in
  value _ <$> parameters _ m' = value _ <$> parameters _ m /\
  architecture _ m' = architecture _ m /\
  in_features _ (head _ m') = in_features _ (head _ m) /\
  out_features _ (head _ m') = out_features _ (head _ m) /\
  Forall2 (fun p q => requires_grad _ q = true -> requires_grad _ p = true)
          (parameters _ m) (parameters _ m') /\
  set_parameter_requires_grad _ m' b = m'.
Proof.
  destruct b; simpl.
  - split.
    { unfold parameters. simpl. rewrite !fmap_app, values_of_frozen. done. }
    split; [done|]. split; [done|]. split; [done|]. split.
    + unfold parameters. simpl. apply Forall2_app.
      * apply Forall2_fmap_r, Forall_Forall2_diag, Forall_forall. intros p _. simpl.
        discriminate.
      * repeat constructor; simpl; discriminate.
    + by rewrite freeze_twice.
  - split; [done|]. split; [done|]. split; [done|]. split; [done|]. split; [|done].
    apply Forall_Forall2_diag, Forall_forall. done.
Qed.

(** X11. For a recognised name the architecture is the one the name
    stands for, and the backbone of the model returned carries the tensors
    torchvision provided for it, frozen or not.  When feature extracting,
    the trainable parameters of the model returned are exactly the weight
    and the bias of the new classification layer. *)
Theorem initialise_model_keeps_backbone_values (name : string) (num_classes : nat)
    (feature_extract use_pretrained : bool) :
  name = "resnet_pret" \/ name = "densenet_pret" ->
  exists m,
    (initialise name num_classes feature_extract use_pretrained).2 = Ok m /\
    architecture _ m = (if String.eqb name "resnet_pret" then ResNet50 else DenseNet121) /\
    value _ <$> backbone _ m = backbone_tensors (architecture _ m) use_pretrained /\
    in_features _ (head _ m) = (head_shape (architecture _ m)).1 /\
    (feature_extract = true ->
     filter trainable (parameters _ m) = [weight _ (head _ m); bias _ (head _ m)]).
Proof.
  intros [-> | ->]; unfold initialise_model; simpl; eexists; (split; [reflexivity|]);
    destruct feature_extract; simpl;
    rewrite ?values_of_frozen, ?values_of_new;
    (split; [done|]); (split; [done|]); (split; [done|]); try done;
    intros _; unfold parameters; simpl;
    by rewrite filter_app, no_trainable_among_frozen.
Qed.

End MoreInitFacts.
End MoreInitFacts.

(** ** Reporting, further *)

Module MoreReportFacts.
Import Report.
Section MoreReportFacts.
Context `{T : Torch}.
Variables (Matrix Frame : Type).
Variable confusion_matrix : list nat -> list nat -> Matrix.
Variable row_normalised : Matrix -> Matrix.
Variable DataFrame : Matrix -> list string -> list string -> Frame.
Variable classification_report : list nat -> list nat -> list string -> string.

Local Abbreviation report :=
  (conf_report Matrix Frame confusion_matrix row_normalised DataFrame classification_report).

(** X12. The predictions [conf_report] gathers are those of the batches
    in loader order, one list per batch, each as long as the labels of its
    batch: the prediction and the label at the same position of the two
    sequences belong to the same sample.  The model object it hands back is
    the one the calls left, each batch being run on the model as the
    previous call left it. *)
Theorem conf_report_predictions_follow_batches (model_fitted : Net) (loader : list Batch)
    (model_type : string) :
  let st := collect model_fitted loader in
  y_pred st = mjoin (batch_predictions model_fitted loader) /\
  y_true st = mjoin (labels <$> loader) /\
  Forall2 (fun ps b => length ps = length (labels b))
          (batch_predictions model_fitted loader) loader /\
  (report model_fitted loader model_type).1
  = foldl (fun n b => (call n (data b)).1) model_fitted loader.
Proof.
  intros st. subst st. unfold collect.
  destruct (ReportFacts.foldl_collect_predictions
              {| model_cpu := model_fitted; y_pred := []; y_true := [] |} loader)
    as [Hp Hm].
  destruct (ReportFacts.foldl_collect
              {| model_cpu := model_fitted; y_pred := []; y_true := [] |} loader)
    as [_ Ht].
  split; [exact Hp|]. split; [exact Ht|].
  split; [apply ReportFacts.batch_predictions_shape|]. exact Hm.
Qed.

End MoreReportFacts.
End MoreReportFacts.

(** ** The further statements at the small instance *)

Module MoreExamples.
Import Toy.

Lemma passes_raise_without_samples_witness :
  samples ([[]] : list (@Batch torch)) = 0 /\
  (@train_epoch torch 0%nat [[]]).2 = Raise ZeroDivisionError /\
  (@test_model torch 0%nat [[]]).2 = Raise ZeroDivisionError.
Proof.
  assert (H : samples ([[]] : list (@Batch torch)) = 0) by reflexivity.
  split; [exact H|].
  destruct (passes_raise_without_samples (T := torch) 0%nat [[]] H) as (Ht & _ & Hs).
  exact (conj Ht Hs).
Defined.

Lemma nan_batch_loss_gives_nan_mean_witness :
  (0 < samples (loader (constant NaN)) /\
   NaN ∈ (observe (T := torch) validate_batch (start (T := torch) 0%nat)
            (loader (constant NaN))).*1) /\
  exists acc, (@validate_epoch torch 0%nat (loader (constant NaN))).2 = Ok (NaN, acc).
Proof.
  assert (H1 : 0 < samples (loader (constant NaN))) by (vm_compute; reflexivity).
  assert (H2 : NaN ∈ (observe (T := torch) validate_batch (start (T := torch) 0%nat)
                        (loader (constant NaN))).*1) by apply list_elem_of_here.
  split; [exact (conj H1 H2)|].
  exact (proj2 (nan_batch_loss_gives_nan_mean (T := torch) 0%nat (loader (constant NaN)) H1)
           H2).
Defined.

Lemma no_epochs_only_loads_witness :
  0 <= 0 /\
  run (loader dip) (loader dip) 2 0 stale
  = (@Build_World torch 99%nat stale [Loaded "best.pt"], Ok ([], [], [], [])).
Proof.
  assert (H : 0 <= 0) by lia. split; [exact H|].
  unfold run.
  rewrite (no_epochs_only_loads (T := torch) (loader dip) (loader dip) 2 "best.pt" false
             0 (world stale) H).
  vm_compute. reflexivity.
Defined.

Lemma run_fails_on_loader_without_samples_witness :
  (1 <= 3 /\ 1 <= 2 /\ samples ([] : list (@Batch torch)) = 0) /\
  run [] (loader dip) 2 3 ∅
  = (@Build_World torch 0%nat ∅ [Tick 0%nat; TrainPass], Raise ZeroDivisionError).
Proof.
  assert (H1 : 1 <= 3) by lia. assert (H2 : 1 <= 2) by lia.
  assert (H3 : samples ([] : list (@Batch torch)) = 0) by reflexivity.
  split; [exact (conj H1 (conj H2 H3))|].
  unfold run.
  rewrite (proj1 (run_fails_on_loader_without_samples (T := torch) [] (loader dip) 2
                    "best.pt" false 3 (world ∅) H1 H2) H3).
  vm_compute. reflexivity.
Defined.

Lemma returned_lists_have_one_length_witness :
  (run (loader dip) (loader dip) 2 5 ∅).2
  = Ok ([Fin 2; Fin 3; Fin 1; Fin 2], [Fin 3; Fin 1; Fin 2; Fin 2],
        [Fin 100; Fin 100; Fin 100; Fin 100], [Fin 100; Fin 100; Fin 100; Fin 100]) /\
  (4 <= Z.to_nat 5)%nat.
Proof.
  assert (H : (run (loader dip) (loader dip) 2 5 ∅).2
              = Ok ([Fin 2; Fin 3; Fin 1; Fin 2], [Fin 3; Fin 1; Fin 2; Fin 2],
                    [Fin 100; Fin 100; Fin 100; Fin 100],
                    [Fin 100; Fin 100; Fin 100; Fin 100]))
    by (vm_compute; reflexivity).
  split; [exact H|]. unfold run in H.
  exact (proj2 (proj2 (proj2
    (returned_lists_have_one_length (T := torch) (loader dip) (loader dip) 2 "best.pt"
       false 5 (world ∅) _ _ _ _ H)))).
Defined.

(** Losses 3, 1, 2, 2 with patience 2 and five epochs: the passes of four
    epochs run, two of them after the best. *)
Lemma passes_stop_patience_epochs_after_best_witness :
  (1 <= 2 /\ 0 < samples (loader dip)) /\
  exists w l (base : nat),
    upto (loader dip) (loader dip) 2 (Z.to_nat 5) ∅ = (w, Ok l) /\
    Z.of_nat (length (total_loss_val l)) = Z.min (Z.max 5 0) (Z.of_nat base + 2).
Proof.
  assert (H1 : 1 <= 2) by lia.
  assert (H2 : 0 < samples (loader dip)) by (vm_compute; reflexivity).
  split; [exact (conj H1 H2)|].
  destruct (passes_stop_patience_epochs_after_best (T := torch) (loader dip) (loader dip) 2
              "best.pt" false 5 (world ∅) H1 H2 H2)
    as (w & l & base & Hrun & _ & Hlen & _).
  exists w, l, base. exact (conj Hrun Hlen).
Defined.

Lemma other_files_untouched_witness :
  "other.pt" <> "best.pt" /\
  fs (run (loader dip) (loader dip) 2 5 stale).1 !! "other.pt" = stale !! "other.pt".
Proof.
  assert (H : "other.pt" <> "best.pt") by discriminate.
  split; [exact H|].
  exact (other_files_untouched (T := torch) (loader dip) (loader dip) 2 "best.pt" false 5
           (world stale) "other.pt" H).
Defined.

Lemma nan_validation_epoch_does_not_save_witness :
  (stopping_ct init_locals < 2 /\
   0 < samples (loader dip) /\ 0 < samples (loader (constant NaN)) /\
   NaN ∈ (observe (T := torch) validate_batch
            (start (T := torch) (@train_epoch torch 0%nat (loader dip)).1)
            (loader (constant NaN))).*1) /\
  exists (w' : @World torch) l' (evs : list (@event torch)),
    @epoch_body torch (loader dip) (loader (constant NaN)) 2 "best.pt" false
      init_locals 0%nat (world stale) = (w', Ok l') /\
    fs w' = stale /\ stopping_ct l' = 0 + 1.
Proof.
  assert (H1 : stopping_ct init_locals < 2) by (simpl; lia).
  assert (H2 : 0 < samples (loader dip)) by (vm_compute; reflexivity).
  assert (H3 : 0 < samples (loader (constant NaN))) by (vm_compute; reflexivity).
  assert (H4 : NaN ∈ (observe (T := torch) validate_batch
                        (start (T := torch) (@train_epoch torch 0%nat (loader dip)).1)
                        (loader (constant NaN))).*1) by apply list_elem_of_here.
  split; [exact (conj H1 (conj H2 (conj H3 H4)))|].
  destruct (nan_validation_epoch_does_not_save (T := torch) (loader dip)
              (loader (constant NaN)) 2 "best.pt" false init_locals 0%nat (world stale)
              H1 H2 H3 H4)
    as (w' & l' & evs & Hb & Hfs & _ & _ & _ & _ & Hct).
  exists w', l', evs. exact (conj Hb (conj Hfs Hct)).
Defined.

Lemma initialise_model_keeps_backbone_values_witness :
  ("resnet_pret" = "resnet_pret" \/ "resnet_pret" = "densenet_pret") /\
  exists m,
    (initialise "resnet_pret" 7 true true).2 = Ok m /\
    Init.architecture _ m = Init.ResNet50 /\
    Init.value _ <$> Init.backbone _ m = [1; 2; 3]%nat.
Proof.
  assert (H : "resnet_pret" = "resnet_pret" \/ "resnet_pret" = "densenet_pret")
    by (left; reflexivity).
  split; [exact H|].
  destruct (MoreInitFacts.initialise_model_keeps_backbone_values nat backbone_tensors
              head_tensors head_shape linear_init "resnet_pret" 7 true true H)
    as (m & Hm & Ha & Hv & _).
  exists m. exact (conj Hm (conj Ha Hv)).
Defined.

End MoreExamples.
